(** * Group OSCORE demo scripts (ilmareca/iot-comm-sec): credential store,
      context construction and the per-message protection pipeline.

    The Python scripts under [coap/grupo-oscore] are modelled as a shallow
    embedding: Python [bytes] are lists of [Byte.byte], [str] is [string],
    dictionaries whose order matters (JSON documents) are association lists,
    dictionaries used as maps are [gmap]s, exceptions are an [outcome] type and
    the file system and the random source are threaded through a
    state-and-exception monad. *)

From Stdlib Require Import ZArith NArith Lia String Ascii Strings.Byte List.
From stdpp Require Import base option list gmap strings pretty sorting.

Open Scope string_scope.
Open Scope list_scope.
Set Warnings "-register-all".

(** ** Python values shared by all scripts *)

Abbreviation bytes := (list Byte.byte).

#[global] Instance byte_eq_dec : EqDecision Byte.byte := Byte.byte_eq_dec.

#[global] Instance byte_countable : Countable Byte.byte :=
  inj_countable Byte.to_N Byte.of_N Byte.of_to_N.

(** The failure kinds of the security layer. *)
Inductive oscore_error : Type :=
| UnsupportedAlgorithm
| UnknownSender
| ReplayDetected
| DecryptionFailed
| SignatureInvalid
| SequenceExhausted
| StaleChallenge.

Inductive exn : Type :=
| KeyError (key : string)
| TypeError
| ValueError
| JSONDecodeError
| OSError
| RuntimeError (msg : string)
| OscoreError (e : oscore_error).

Inductive outcome (A : Type) : Type :=
| Returned (a : A)
| Raised (e : exn).
Arguments Returned {A} a.
Arguments Raised {A} e.

(** ** [bytes.hex()] and [bytes.fromhex()] *)

Module Hex.

Definition hex_digit (n : N) : ascii :=
  if (n <? 10)%N then ascii_of_N (48 + n) else ascii_of_N (87 + n).

Definition byte_hex (b : Byte.byte) : string :=
  let n := Byte.to_N b in
  String (hex_digit (n / 16)) (String (hex_digit (n mod 16)) EmptyString).

(** [b.hex()]: two lowercase hexadecimal digits per byte. *)
Fixpoint hex (b : bytes) : string :=
  match b with
  | [] => EmptyString
  | x :: xs => byte_hex x +:+ hex xs
  end.

Definition hex_val (c : ascii) : option N :=
  let n := N_of_ascii c in
  if ((48 <=? n) && (n <=? 57))%N then Some (n - 48)%N
  else if ((97 <=? n) && (n <=? 102))%N then Some (n - 87)%N
  else if ((65 <=? n) && (n <=? 70))%N then Some (n - 55)%N
  else None.

(** ASCII white space as [bytes.fromhex] skips it between byte pairs. *)
Definition is_space (c : ascii) : bool :=
  let n := N_of_ascii c in
  ((n =? 32) || ((9 <=? n) && (n <=? 13)))%N.

(** [bytes.fromhex(s)]: [None] stands for the [ValueError] it raises. *)
Fixpoint fromhex (s : string) : option bytes :=
  match s with
  | EmptyString => Some []
  | String c rest =>
      if is_space c then fromhex rest
      else match rest with
           | EmptyString => None
           | String d rest' =>
               match hex_val c, hex_val d with
               | Some hi, Some lo =>
                   match Byte.of_N (16 * hi + lo), fromhex rest' with
                   | Some b, Some bs => Some (b :: bs)
                   | _, _ => None
                   end
               | _, _ => None
               end
           end
  end.

End Hex.

(** ** JSON documents: [json.dump(obj, f, indent=2)] and [json.load] *)

Module Json.

Inductive json : Type :=
| JNull
| JBool (b : bool)
| JInt (z : Z)
| JStr (s : string)
| JArr (items : list json)
| JObj (members : list (string * json)).

(** [d[k]] on a loaded document; a [dict] built by [json.load] keeps the last
    binding of a repeated key. *)
Fixpoint assoc_last (k : string) (kvs : list (string * json)) : option json :=
  match kvs with
  | [] => None
  | (k', v) :: rest =>
      match assoc_last k rest with
      | Some v' => Some v'
      | None => if String.eqb k k' then Some v else None
      end
  end.

Definition getitem (j : json) (k : string) : outcome json :=
  match j with
  | JObj kvs =>
      match assoc_last k kvs with
      | Some v => Returned v
      | None => Raised (KeyError k)
      end
  | _ => Raised TypeError
  end.

Definition keys (j : json) : list string :=
  match j with
  | JObj kvs => kvs.*1
  | _ => []
  end.

Definition four_hex (n : N) : string :=
  String (Hex.hex_digit (n / 4096))
    (String (Hex.hex_digit ((n / 256) mod 16))
       (String (Hex.hex_digit ((n / 16) mod 16))
          (String (Hex.hex_digit (n mod 16)) EmptyString))).

(** The escaping of [json.dump] with its default [ensure_ascii=True]. *)
Definition escape_char (c : ascii) : string :=
  let n := N_of_ascii c in
  if (n =? 34)%N then "\" +:+ String c EmptyString
  else if (n =? 92)%N then "\\"
  else if (n =? 10)%N then "\n"
  else if (n =? 13)%N then "\r"
  else if (n =? 9)%N then "\t"
  else if (n =? 8)%N then "\b"
  else if (n =? 12)%N then "\f"
  else if ((32 <=? n) && (n <=? 126))%N then String c EmptyString
  else "\u" +:+ four_hex n.

Fixpoint escape (s : string) : string :=
  match s with
  | EmptyString => EmptyString
  | String c r => escape_char c +:+ escape r
  end.

Definition dquote : ascii := ascii_of_N 34.

Definition quote (s : string) : string :=
  String dquote (escape s +:+ String dquote EmptyString).

Definition newline : string := String (ascii_of_N 10) EmptyString.

Fixpoint spaces (n : nat) : string :=
  match n with
  | O => EmptyString
  | S n' => String " " (spaces n')
  end.

(** Line break followed by the indentation of nesting depth [level]. *)
Definition nl (indent level : nat) : string :=
  newline +:+ spaces (indent * level).

(** [json.dumps(j, indent=indent)] at nesting depth [level]. *)
Fixpoint dump_at (indent level : nat) (j : json) {struct j} : string :=
  match j with
  | JNull => "null"
  | JBool true => "true"
  | JBool false => "false"
  | JInt z => pretty z
  | JStr s => quote s
  | JArr [] => "[]"
  | JArr (x :: xs) =>
      "[" +:+ nl indent (S level) +:+ dump_at indent (S level) x +:+
      (fix items (l : list json) : string :=
         match l with
         | [] => EmptyString
         | y :: ys =>
             "," +:+ nl indent (S level) +:+ dump_at indent (S level) y +:+ items ys
         end) xs +:+
      nl indent level +:+ "]"
  | JObj [] => "{}"
  | JObj ((k, v) :: kvs) =>
      "{" +:+ nl indent (S level) +:+ quote k +:+ ": " +:+
      dump_at indent (S level) v +:+
      (fix members (l : list (string * json)) : string :=
         match l with
         | [] => EmptyString
         | (k', v') :: rest =>
             "," +:+ nl indent (S level) +:+ quote k' +:+ ": " +:+
             dump_at indent (S level) v' +:+ members rest
         end) kvs +:+
      nl indent level +:+ "}"
  end.

Definition dumps (indent : nat) (j : json) : string := dump_at indent 0 j.

(** A decoder for the documents the scripts write: objects and strings
    without escape sequences, separated by JSON white space.  It is the
    instance of [json.load] on which the model is run on concrete files. *)
Definition is_ws (c : ascii) : bool :=
  let n := N_of_ascii c in
  ((n =? 32) || (n =? 9) || (n =? 10) || (n =? 13))%N.

Fixpoint skip_ws (s : string) : string :=
  match s with
  | EmptyString => EmptyString
  | String c r => if is_ws c then skip_ws r else s
  end.

(** The text after an opening quote, up to the closing quote. *)
Fixpoint parse_string_body (s : string) : option (string * string) :=
  match s with
  | EmptyString => None
  | String c r =>
      let n := N_of_ascii c in
      if (n =? 34)%N then Some (EmptyString, r)
      else if ((n =? 92) || (n <? 32))%N then None
      else match parse_string_body r with
           | Some (body, rest) => Some (String c body, rest)
           | None => None
           end
  end.

Fixpoint parse_value (fuel : nat) (s : string) : option (json * string) :=
  match fuel with
  | O => None
  | S f =>
      match skip_ws s with
      | EmptyString => None
      | String c r =>
          if (N_of_ascii c =? 34)%N then
            match parse_string_body r with
            | Some (str, r') => Some (JStr str, r')
            | None => None
            end
          else if (N_of_ascii c =? 123)%N then
            match skip_ws r with
            | EmptyString => None
            | String c1 r1 =>
                if (N_of_ascii c1 =? 125)%N then Some (JObj [], r1)
                else
                  (fix members (n : nat) (s1 : string) (acc : list (string * json))
                     : option (json * string) :=
                     match n with
                     | O => None
                     | S n' =>
                         match skip_ws s1 with
                         | EmptyString => None
                         | String q s2 =>
                             if negb (N_of_ascii q =? 34)%N then None
                             else
                               match parse_string_body s2 with
                               | None => None
                               | Some (k, s3) =>
                                   match skip_ws s3 with
                                   | EmptyString => None
                                   | String colon s4 =>
                                       if negb (N_of_ascii colon =? 58)%N then None
                                       else
                                         match parse_value f s4 with
                                         | None => None
                                         | Some (v, s5) =>
                                             match skip_ws s5 with
                                             | EmptyString => None
                                             | String sep s6 =>
                                                 if (N_of_ascii sep =? 44)%N
                                                 then members n' s6 (acc ++ [(k, v)])%list
                                                 else if (N_of_ascii sep =? 125)%N
                                                 then Some (JObj (acc ++ [(k, v)])%list, s6)
                                                 else None
                                             end
                                         end
                                   end
                               end
                         end
                     end) f (String c1 r1) []
            end
          else None
      end
  end.

Definition loads (s : string) : option json :=
  match parse_value (S (String.length s)) s with
  | Some (v, rest) =>
      match skip_ws rest with
      | EmptyString => Some v
      | _ => None
      end
  | None => None
  end.

End Json.

Import Json.


(** ** The platform underneath the scripts

    What the scripts import and do not define: the Ed25519 key generation of
    aiocoap, the operating system's random source and the JSON decoder of the
    standard library.  Key generation and the random source thread a
    generator state of type [Rng]. *)

Class Platform : Type := {
  Rng : Type;
  (** [Ed25519().generate_with_ccs()]: a private key and its credential. *)
  generate_with_ccs : Rng -> outcome (bytes * bytes) * Rng;
  (** [secrets.token_bytes(n)]. *)
  token_bytes : nat -> Rng -> bytes * Rng;
  (** [json.load] on the text of a file; [None] when it raises. *)
  json_load : string -> option json
}.

(** File system primitives the scripts reach through [open], [os.remove]
    and, were it used, [os.rename]. *)
Inductive fs_op : Type :=
| OpenTrunc (path : string)
| WriteText (path : string) (data : string)
| Rename (src dst : string)
| Remove (path : string).

Definition apply_op (op : fs_op) (fs : gmap string string) : gmap string string :=
  match op with
  | OpenTrunc p => <[p := EmptyString]> fs
  | WriteText p d =>
      match fs !! p with
      | Some old => <[p := old +:+ d]> fs
      | None => fs
      end
  | Rename a b =>
      match fs !! a with
      | Some c => <[b := c]> (delete a fs)
      | None => fs
      end
  | Remove p => delete p fs
  end.

(** The file systems another process can see while [ops] run on [fs]. *)
Fixpoint observable_states (fs : gmap string string) (ops : list fs_op)
  : list (gmap string string) :=
  match ops with
  | [] => [fs]
  | op :: rest => fs :: observable_states (apply_op op fs) rest
  end.

Record world `{Platform} : Type := mkWorld {
  files : gmap string string;
  rng : Rng;
  trace : list fs_op
}.

(** Computations of the scripts: a state and exception monad over [world]. *)
Definition M `{Platform} (A : Type) : Type := world -> outcome A * world.

Definition ret `{Platform} {A} (a : A) : M A := fun w => (Returned a, w).

Definition raise `{Platform} {A} (e : exn) : M A := fun w => (Raised e, w).

Definition bind `{Platform} {A B} (m : M A) (k : A -> M B) : M B :=
  fun w =>
    match m w with
    | (Returned a, w') => k a w'
    | (Raised e, w') => (Raised e, w')
    end.

(** [try: m except Exception as e: h e]. *)
Definition try_except `{Platform} {A} (m : M A) (h : exn -> M A) : M A :=
  fun w =>
    match m w with
    | (Returned a, w') => (Returned a, w')
    | (Raised e, w') => h e w'
    end.

Definition lift_outcome `{Platform} {A} (o : outcome A) : M A :=
  fun w => (o, w).

#[global] Instance M_ret `{Platform} : MRet M := @ret _.
#[global] Instance M_bind `{Platform} : MBind M := fun A B k m => bind m k.

Definition fs_do `{Platform} (op : fs_op) : M unit :=
  fun w => (Returned tt,
            {| files := apply_op op (files w); rng := rng w;
               trace := (trace w ++ [op])%list |}).

Definition keygen `{Platform} : M (bytes * bytes) :=
  fun w =>
    let '(o, g) := generate_with_ccs (rng w) in
    (o, {| files := files w; rng := g; trace := trace w |}).

Definition path_exists `{Platform} (p : string) : M bool :=
  fun w => (Returned (bool_decide (is_Some (files w !! p))), w).

(** [with open(p, 'r') as f: json.load(f)]. *)
Definition read_json `{Platform} (p : string) : M json :=
  fun w =>
    match files w !! p with
    | None => (Raised OSError, w)
    | Some text =>
        match json_load text with
        | Some j => (Returned j, w)
        | None => (Raised JSONDecodeError, w)
        end
    end.

(** [with open(p, 'w') as f: json.dump(j, f, indent=2)]: the file is
    truncated when it is opened and receives the document when the buffered
    text is flushed. *)
Definition write_json `{Platform} (p : string) (j : json) : M unit :=
  _ ← fs_do (OpenTrunc p); fs_do (WriteText p (dumps 2 j)).

(** ** Credential management ([oscore_group_network_fixed.py],
       [oscore_group_benchmark.py]) *)

Definition CREDENTIALS_FILE : string := "oscore_group_credentials.json".

Record GroupConfig : Type := {
  group_id : bytes;
  master_secret : bytes;
  master_salt : bytes;
  client_id : bytes;
  server_id : bytes
}.

Definition GROUP_CONFIG : GroupConfig := {|
  group_id := [x67; x72; x70; x31];
  master_secret := [x42; x5a; x52; x4d; x5a; x32; xf7; xd0;
                    xd3; x86; x60; x33; x59; xfa; x38; x32];
  master_salt := [x1b; x0b; x57; xf7; x4e; xf4; x09; x9c];
  client_id := [x43; x31];
  server_id := [x53; x31]
|}.

Definition credential_entry (kp : bytes * bytes) : json :=
  JObj [("private_key", JStr (Hex.hex kp.1)); ("credential", JStr (Hex.hex kp.2))].

(** The dictionary both scripts build from the three generated key pairs. *)
Definition credentials_dict (gm client server : bytes * bytes) : json :=
  JObj [("group_manager", credential_entry gm);
        ("client", credential_entry client);
        ("server", credential_entry server)].

Module NetworkFixed.

Definition generate_and_save_credentials `{Platform} : M json :=
  gm ← keygen;
  client ← keygen;
  server ← keygen;
  let credentials := credentials_dict gm client server in
  _ ← write_json CREDENTIALS_FILE credentials;
  ret credentials.

Definition load_credentials `{Platform} : M json :=
  present ← path_exists CREDENTIALS_FILE;
  if negb present then generate_and_save_credentials
  else try_except (read_json CREDENTIALS_FILE)
         (fun _ => generate_and_save_credentials).

Definition reset_credentials `{Platform} : M unit :=
  present ← path_exists CREDENTIALS_FILE;
  if (present : bool) then fs_do (Remove CREDENTIALS_FILE) else ret tt.

End NetworkFixed.

Module Benchmark.

Definition load_or_create_credentials `{Platform} : M json :=
  present ← path_exists CREDENTIALS_FILE;
  found ← (if (present : bool)
            then try_except (j ← read_json CREDENTIALS_FILE; ret (Some j))
                   (fun _ => ret None)
            else ret None);
  match found with
  | Some j => ret j
  | None =>
      gm ← keygen;
      client ← keygen;
      server ← keygen;
      let credentials := credentials_dict gm client server in
      _ ← write_json CREDENTIALS_FILE credentials;
      ret credentials
  end.

End Benchmark.

(** A platform on which the model runs: the generator state is a counter,
    the [n]-th key pair is made of the byte [n], and files are decoded by
    [Json.loads]. *)
Definition toy_byte (n : N) : Byte.byte :=
  default x00 (Byte.of_N (n mod 256)).

#[global] Instance toy_platform : Platform := {|
  Rng := N;
  generate_with_ccs := fun n =>
    (Returned (repeat (toy_byte n) 4, [toy_byte n; x01]), N.succ n);
  token_bytes := fun len n => (repeat (toy_byte n) len, N.succ n);
  json_load := Json.loads
|}.

(** ** The security context layer

    The scripts subclass aiocoap's [SimpleGroupContext]; its constructor,
    [protect], [unprotect] and the replay window are imported, not defined in
    the repository. *)

(** Modelled from the spec: the derivation context of the key-derivation
    function, the binding of a response to its request and the external
    associated data; aiocoap's own encodings are not in the repository. *)
Inductive kdf_label : Type := LabelKey | LabelIV.

Record kdf_info : Type := {
  info_group : bytes;
  info_sender : bytes;
  info_recipient : bytes;
  info_label : kdf_label
}.

(** What binds a response to its request in the associated data. *)
Inductive Correlation : Type :=
| FromRequest (kid piv : bytes)
| FromEcho (token : bytes).

Record AssociatedData : Type := {
  aad_group : bytes;
  aad_sender : bytes;
  aad_alg_aead : Z;
  aad_alg_signature : Z;
  aad_hash : string;
  aad_binding : option Correlation
}.

Record Message : Type := {
  code : Z;
  options : list (Z * bytes);
  payload : bytes
}.

(** Modelled from the spec: the primitives the security layer is built on
    and the spec names without fixing them: the key-derivation function,
    the AEAD cipher, the signature scheme, the nonce construction, the width
    of the partial sequence number with its reconstruction against a
    high-water mark, and the message codec.  None of them is defined in the
    repository. *)
Class Crypto : Type := {
  aead_implemented : Z -> bool;
  hash_implemented : string -> bool;
  kdf : string -> bytes -> bytes -> kdf_info -> bytes;
  aead_encrypt : Z -> bytes -> bytes -> AssociatedData -> bytes -> bytes;
  aead_decrypt : Z -> bytes -> bytes -> AssociatedData -> bytes -> option bytes;
  sign : Z -> bytes -> AssociatedData * bytes -> bytes;
  verify : Z -> bytes -> AssociatedData * bytes -> bytes -> bool;
  signature_length : Z -> nat;
  build_nonce : bytes -> bytes -> Z -> bytes;
  partial_iv_length : nat;
  reconstruct : option Z -> bytes -> Z;
  encode_message : Message -> bytes;
  decode_message : bytes -> option Message
}.

(** *** ReplayWindow *)

Module ReplayWindow.

(** Modelled from the spec: the replay window, which the repository takes
    from aiocoap ([recipient_replay_windows], [initialize_empty]).  A window
    that was never initialized rejects everything; after [initialize_empty]
    it is not yet anchored. *)
Record t : Type := mk {
  initialized : bool;
  anchored : bool;
  highest : Z;
  accepted : gset Z;
  window_size : Z
}.

(** Modelled from the spec: a window of the given size on which
    [initialize_empty] has not been called yet. *)
Definition create (size : Z) : t :=
  {| initialized := false; anchored := false; highest := 0;
     accepted := ∅; window_size := size |}.

(** Modelled from the spec: [initialize_empty()] clears the state and marks
    the window as not yet anchored. *)
Definition initialize_empty (w : t) : t :=
  {| initialized := true; anchored := false; highest := 0;
     accepted := ∅; window_size := window_size w |}.

(** Modelled from the spec: [check_and_record(seq)]. *)
Definition check_and_record (seq : Z) (w : t) : bool * t :=
  if negb (initialized w) then (false, w)
  else if negb (anchored w) then
    (true, {| initialized := true; anchored := true; highest := seq;
              accepted := {[ seq ]}; window_size := window_size w |})
  else if bool_decide (seq ≤ highest w - window_size w)%Z
          || bool_decide (seq ∈ accepted w)
  then (false, w)
  else
    let h := Z.max (highest w) seq in
    (true, {| initialized := true; anchored := true; highest := h;
              accepted := filter (fun x => h - window_size w < x)%Z
                            ({[ seq ]} ∪ accepted w);
              window_size := window_size w |}).

(** Modelled from the spec: the high-water mark a receiver tracks for a
    sender, absent until the window is anchored. *)
Definition tracked (w : t) : option Z :=
  if initialized w && anchored w then Some (highest w) else None.

End ReplayWindow.

(** *** Contexts *)

Inductive context_class : Type :=
| SimpleGroupContext
| FixedGroupContext
| BenchmarkGroupContext.

(** The keyword arguments every script passes to the context constructor. *)
Record ContextArgs : Type := {
  alg_aead : Z;
  hashfun : string;
  alg_signature : Z;
  alg_group_enc : Z;
  alg_pairwise_key_agreement : option Z;
  arg_group_id : bytes;
  arg_master_secret : bytes;
  arg_master_salt : bytes;
  sender_id : bytes;
  private_key : bytes;
  sender_auth_cred : bytes;
  arg_peers : gmap bytes bytes;
  group_manager_cred : bytes
}.

Record DerivedKeyMaterial : Type := {
  aead_key : bytes;
  common_iv : bytes
}.

Record Context : Type := mkContext {
  cls : context_class;
  args : ContextArgs;
  peers : gmap bytes bytes;
  recipient_replay_windows : gmap bytes ReplayWindow.t;
  echo_recovery : option bytes;
  sender_sequence_number : Z;
  sender_material : DerivedKeyMaterial;
  recipient_material : gmap bytes DerivedKeyMaterial
}.

Definition set_cls (k : context_class) (c : Context) : Context :=
  mkContext k (args c) (peers c) (recipient_replay_windows c) (echo_recovery c)
    (sender_sequence_number c) (sender_material c) (recipient_material c).

Definition set_echo_recovery (t : bytes) (c : Context) : Context :=
  mkContext (cls c) (args c) (peers c) (recipient_replay_windows c) (Some t)
    (sender_sequence_number c) (sender_material c) (recipient_material c).

Definition set_windows (ws : gmap bytes ReplayWindow.t) (c : Context) : Context :=
  mkContext (cls c) (args c) (peers c) ws (echo_recovery c)
    (sender_sequence_number c) (sender_material c) (recipient_material c).

Definition set_sequence_number (n : Z) (c : Context) : Context :=
  mkContext (cls c) (args c) (peers c) (recipient_replay_windows c)
    (echo_recovery c) n (sender_material c) (recipient_material c).

(** The constructor of aiocoap's [SimpleGroupContext], which the scripts call
    through [super().__init__] or directly. *)
Class Aiocoap : Type := {
  SimpleGroupContext_init : ContextArgs -> outcome Context
}.

(** COSE identifiers of the algorithms the scripts configure. *)
Definition A128GCM : Z := 1.
Definition Ed25519 : Z := (-8).
Definition sha256 : string := "sha256".

(** One iteration of the loop of [FixedGroupContext.__init__] and
    [BenchmarkGroupContext.__init__]:
    [if peer_id in self.recipient_replay_windows:
         self.recipient_replay_windows[peer_id].initialize_empty()]. *)
Definition initialize_peer_window (c : Context) (peer_id : bytes) : Context :=
  match recipient_replay_windows c !! peer_id with
  | Some w =>
      set_windows (<[peer_id := ReplayWindow.initialize_empty w]>
                     (recipient_replay_windows c)) c
  | None => c
  end.

(** [for peer_id in self.peers: ...]. *)
Definition initialize_replay_windows (c : Context) : Context :=
  foldl initialize_peer_window c (map_to_list (peers c)).*1.

(** What [FixedGroupContext.__init__] and [BenchmarkGroupContext.__init__]
    share: the base constructor, an 8-byte echo recovery token, the replay
    windows. *)
Definition subclass_init `{Platform} `{Aiocoap} (k : context_class)
    (a : ContextArgs) : M Context :=
  base ← lift_outcome (SimpleGroupContext_init a);
  token ← (fun w => let '(t, g) := token_bytes 8 (rng w) in
                    (Returned t, {| files := files w; rng := g; trace := trace w |}));
  ret (initialize_replay_windows (set_echo_recovery token (set_cls k base))).

Definition FixedGroupContext_init `{Platform} `{Aiocoap} (a : ContextArgs)
  : M Context := subclass_init FixedGroupContext a.

Definition BenchmarkGroupContext_init `{Platform} `{Aiocoap} (a : ContextArgs)
  : M Context := subclass_init BenchmarkGroupContext a.

(** [bytes.fromhex(creds[who][field])]. *)
Definition hex_field `{Platform} (creds : json) (who field : string) : M bytes :=
  entry ← lift_outcome (getitem creds who);
  v ← lift_outcome (getitem entry field);
  match v with
  | JStr text =>
      match Hex.fromhex text with
      | Some b => ret b
      | None => raise ValueError
      end
  | _ => raise TypeError
  end.

Definition make_args (sid key cred : bytes) (ps : gmap bytes bytes)
    (gm_cred : bytes) : ContextArgs :=
  {| alg_aead := A128GCM; hashfun := sha256; alg_signature := Ed25519;
     alg_group_enc := A128GCM; alg_pairwise_key_agreement := None;
     arg_group_id := group_id GROUP_CONFIG;
     arg_master_secret := master_secret GROUP_CONFIG;
     arg_master_salt := master_salt GROUP_CONFIG;
     sender_id := sid; private_key := key; sender_auth_cred := cred;
     arg_peers := ps; group_manager_cred := gm_cred |}.

(** The part of [create_group_context] and [create_benchmark_context] that
    reads the member's keys out of the loaded credentials. *)
Definition member_args `{Platform} (creds : json) (is_client : bool)
  : M ContextArgs :=
  gm_private_key ← hex_field creds "group_manager" "private_key";
  gm_cred ← hex_field creds "group_manager" "credential";
  if is_client then
    key ← hex_field creds "client" "private_key";
    cred ← hex_field creds "client" "credential";
    peer ← hex_field creds "server" "credential";
    ret (make_args (client_id GROUP_CONFIG) key cred
           {[ server_id GROUP_CONFIG := peer ]} gm_cred)
  else
    key ← hex_field creds "server" "private_key";
    cred ← hex_field creds "server" "credential";
    peer ← hex_field creds "client" "credential";
    ret (make_args (server_id GROUP_CONFIG) key cred
           {[ client_id GROUP_CONFIG := peer ]} gm_cred).

Inductive server_run : Type :=
| ServerAborted
| ServerStarted (c : Context).

Inductive client_run : Type :=
| ClientAborted
| ClientStarted (c : Context).

Module NetworkFixedContext.

(** [create_group_context]: the constructor call sits in
    [try: ... except Exception as e: ... return None]. *)
Definition create_group_context `{Platform} `{Aiocoap} (is_client : bool)
  : M (option Context) :=
  creds ← NetworkFixed.load_credentials;
  a ← member_args creds is_client;
  try_except (context ← FixedGroupContext_init a; ret (Some context))
    (fun _ => ret None).

(** The start of [run_server]: [if not server_context: ... return]. *)
Definition run_server `{Platform} `{Aiocoap} : M server_run :=
  server_context ← create_group_context false;
  match server_context with
  | None => ret ServerAborted
  | Some c => ret (ServerStarted c)
  end.

(** The start of [run_client]: [if not client_context: ... return]. *)
Definition run_client `{Platform} `{Aiocoap} : M client_run :=
  client_context ← create_group_context true;
  match client_context with
  | None => ret ClientAborted
  | Some c => ret (ClientStarted c)
  end.

End NetworkFixedContext.

Module BenchmarkContext.

Definition create_benchmark_context `{Platform} `{Aiocoap} (is_client : bool)
  : M Context :=
  creds ← Benchmark.load_or_create_credentials;
  a ← member_args creds is_client;
  BenchmarkGroupContext_init a.

End BenchmarkContext.

(** *** [server_oscore_group_testing.py] *)

Record SharedConfig : Type := {
  cfg_group_id : bytes;
  cfg_master_secret : bytes;
  cfg_master_salt : bytes;
  cfg_alg_aead : Z;
  cfg_alg_signature : Z;
  cfg_alg_group_enc : Z;
  cfg_alg_pairwise_key_agreement : option Z;
  cfg_hashfun : string;
  cfg_client_id : bytes;
  cfg_server_id : bytes;
  cfg_gm_private_key : bytes;
  cfg_gm_cred : bytes;
  cfg_client_private_key : bytes;
  cfg_client_cred : bytes;
  cfg_server_private_key : bytes;
  cfg_server_cred : bytes
}.

Module Testing.

Definition random_bytes `{Platform} (n : nat) : M bytes :=
  fun w => let '(t, g) := token_bytes n (rng w) in
           (Returned t, {| files := files w; rng := g; trace := trace w |}).

Definition create_shared_group_config `{Platform} : M SharedConfig :=
  secret ← random_bytes 16;
  salt ← random_bytes 8;
  gm ← keygen;
  client ← keygen;
  server ← keygen;
  ret {| cfg_group_id := [x67; x72; x70; x31];
         cfg_master_secret := secret; cfg_master_salt := salt;
         cfg_alg_aead := A128GCM; cfg_alg_signature := Ed25519;
         cfg_alg_group_enc := A128GCM;
         cfg_alg_pairwise_key_agreement := None; cfg_hashfun := sha256;
         cfg_client_id := [x43; x31]; cfg_server_id := [x53; x31];
         cfg_gm_private_key := gm.1; cfg_gm_cred := gm.2;
         cfg_client_private_key := client.1; cfg_client_cred := client.2;
         cfg_server_private_key := server.1; cfg_server_cred := server.2 |}.

Definition config_args (config : SharedConfig) (sid key cred : bytes)
    (ps : gmap bytes bytes) : ContextArgs :=
  {| alg_aead := cfg_alg_aead config; hashfun := cfg_hashfun config;
     alg_signature := cfg_alg_signature config;
     alg_group_enc := cfg_alg_group_enc config;
     alg_pairwise_key_agreement := cfg_alg_pairwise_key_agreement config;
     arg_group_id := cfg_group_id config;
     arg_master_secret := cfg_master_secret config;
     arg_master_salt := cfg_master_salt config;
     sender_id := sid; private_key := key; sender_auth_cred := cred;
     arg_peers := ps; group_manager_cred := cfg_gm_cred config |}.

Definition client_args (config : SharedConfig) : ContextArgs :=
  config_args config (cfg_client_id config) (cfg_client_private_key config)
    (cfg_client_cred config) {[ cfg_server_id config := cfg_server_cred config ]}.

Definition server_args (config : SharedConfig) : ContextArgs :=
  config_args config (cfg_server_id config) (cfg_server_private_key config)
    (cfg_server_cred config) {[ cfg_client_id config := cfg_client_cred config ]}.

(** [create_group_contexts_from_config]: both constructor calls sit in one
    [try]; any exception yields [(None, None)]. *)
Definition create_group_contexts_from_config `{Aiocoap} (config : SharedConfig)
  : option Context * option Context :=
  match SimpleGroupContext_init (client_args config) with
  | Raised _ => (None, None)
  | Returned client_context =>
      match SimpleGroupContext_init (server_args config) with
      | Raised _ => (None, None)
      | Returned server_context =>
          (Some (set_cls SimpleGroupContext client_context),
           Some (set_cls SimpleGroupContext server_context))
      end
  end.

End Testing.

(** *** The protection pipeline *)

Record GroupParameters : Type := {
  gp_group_id : bytes;
  gp_master_secret : bytes;
  gp_master_salt : bytes;
  gp_alg_aead : Z;
  gp_alg_signature : Z;
  gp_hash : string
}.

Definition params_of (a : ContextArgs) : GroupParameters :=
  {| gp_group_id := arg_group_id a; gp_master_secret := arg_master_secret a;
     gp_master_salt := arg_master_salt a; gp_alg_aead := alg_aead a;
     gp_alg_signature := alg_signature a; gp_hash := hashfun a |}.

Record ProtectedMessage : Type := {
  pm_kid : bytes;
  pm_piv : bytes;
  pm_body : bytes
}.

Module Core.

(** Modelled from the spec: [KeyScheduler.derive], which the repository
    takes from aiocoap.  The master secret and salt are the key-derivation
    input, the group, sender and recipient identifiers the derivation
    context. *)
Definition derive `{Crypto} (p : GroupParameters) (sender recipient : bytes)
  : option DerivedKeyMaterial :=
  if aead_implemented (gp_alg_aead p) && hash_implemented (gp_hash p) then
    Some {| aead_key :=
              kdf (gp_hash p) (gp_master_salt p) (gp_master_secret p)
                {| info_group := gp_group_id p; info_sender := sender;
                   info_recipient := recipient; info_label := LabelKey |};
            common_iv :=
              kdf (gp_hash p) (gp_master_salt p) (gp_master_secret p)
                {| info_group := gp_group_id p; info_sender := sender;
                   info_recipient := recipient; info_label := LabelIV |} |}
  else None.

(** Modelled from the spec: the key material is per sender and a group
    message names no single recipient, so the material every member caches
    for a sender is derived with the empty recipient identifier. *)
Definition group_recipient : bytes := [].

(** Modelled from the spec: the fixed window size (32 to 64 entries). *)
Definition REPLAY_WINDOW_SIZE : Z := 32.

(** Modelled from the spec: construction of the base context, which the
    repository takes from aiocoap: the key material is derived once, the
    sequence counter starts at 0, and every peer gets a replay window,
    initialized empty at context creation. *)
Definition group_context_init `{Crypto} (a : ContextArgs) : outcome Context :=
  match derive (params_of a) (sender_id a) group_recipient with
  | None => Raised (OscoreError UnsupportedAlgorithm)
  | Some own =>
      Returned
        {| cls := SimpleGroupContext; args := a; peers := arg_peers a;
           recipient_replay_windows :=
             (fun _ => ReplayWindow.initialize_empty
                         (ReplayWindow.create REPLAY_WINDOW_SIZE)) <$> arg_peers a;
           echo_recovery := None;
           sender_sequence_number := 0;
           sender_material := own;
           recipient_material :=
             map_imap (fun peer_id _ => derive (params_of a) peer_id group_recipient)
               (arg_peers a) |}
  end.

#[global] Instance aiocoap `{Crypto} : Aiocoap :=
  {| SimpleGroupContext_init := group_context_init |}.

(** Modelled from the spec: the largest value of the sequence counter in
    its fixed-width (64-bit) representation. *)
Definition MAX_SEQ : Z := 2 ^ 64 - 1.

Definition byte_of_Z (z : Z) : Byte.byte :=
  default x00 (Byte.of_N (Z.to_N (z mod 256))).

(** [n] bytes, big-endian, of the low-order bits of [v]. *)
Fixpoint be_bytes (n : nat) (v : Z) : bytes :=
  match n with
  | O => []
  | S k => be_bytes k (v / 256) ++ [byte_of_Z v]
  end.

(** Modelled from the spec: the partial sequence number on the wire, the
    low-order bytes of the counter in a fixed width. *)
Definition piv_of `{Crypto} (seq : Z) : bytes := be_bytes partial_iv_length seq.

(** Modelled from the spec: the external associated data: group and sender
    identifiers, algorithm identifiers and, for a response, what binds it to
    its request. *)
Definition make_aad (c : Context) (sender : bytes) (binding : option Correlation)
  : AssociatedData :=
  {| aad_group := arg_group_id (args c); aad_sender := sender;
     aad_alg_aead := alg_aead (args c);
     aad_alg_signature := alg_signature (args c);
     aad_hash := hashfun (args c); aad_binding := binding |}.

(** Modelled from the spec: what one [protect] call computes: the
    sequence number it allocates, the nonce, the wire fields, the
    correlation handle and the context it leaves. *)
Record Protection : Type := {
  used_seq : Z;
  used_nonce : bytes;
  wire : ProtectedMessage;
  handle : Correlation;
  after : Context
}.

(** Modelled from the spec: [SecurityContext.protect], which the repository
    takes from aiocoap. *)
Definition protect_steps `{Crypto} (c : Context) (m : Message)
    (correlation : option Correlation) : oscore_error + Protection :=
  let seq := sender_sequence_number c in
  if bool_decide (MAX_SEQ ≤ seq)%Z then inl SequenceExhausted
  else
    let me := sender_id (args c) in
    let aad := make_aad c me correlation in
    let nonce := build_nonce (common_iv (sender_material c)) me seq in
    let ciphertext :=
      aead_encrypt (alg_aead (args c)) (aead_key (sender_material c)) nonce aad
        (encode_message m) in
    let signature :=
      sign (alg_signature (args c)) (private_key (args c)) (aad, ciphertext) in
    inr {| used_seq := seq; used_nonce := nonce;
           wire := {| pm_kid := me; pm_piv := piv_of seq;
                      pm_body := ciphertext ++ signature |};
           handle := match correlation with
                     | Some h => h
                     | None => FromRequest me (piv_of seq)
                     end;
           after := set_sequence_number (seq + 1) c |}.

(** Modelled from the spec: the output of [protect]: the protected
    message, the correlation handle and the context after the call. *)
Definition protect `{Crypto} (c : Context) (m : Message)
    (correlation : option Correlation)
  : oscore_error + (ProtectedMessage * Correlation * Context) :=
  match protect_steps c m correlation with
  | inl e => inl e
  | inr p => inr (wire p, handle p, after p)
  end.

(** Modelled from the spec: [SecurityContext.unprotect], which the
    repository takes from aiocoap.  A failure leaves the context as it was. *)
Definition unprotect `{Crypto} (c : Context) (pm : ProtectedMessage)
    (correlation : option Correlation)
  : oscore_error + (Message * option Correlation * Context) :=
  let kid := pm_kid pm in
  let n := signature_length (alg_signature (args c)) in
  match peers c !! kid, recipient_material c !! kid,
        recipient_replay_windows c !! kid with
  | Some cred, Some material, Some window =>
      let seq := reconstruct (ReplayWindow.tracked window) (pm_piv pm) in
      let ciphertext := take (length (pm_body pm) - n) (pm_body pm) in
      let signature := drop (length (pm_body pm) - n) (pm_body pm) in
      match ReplayWindow.check_and_record seq window with
      | (false, _) => inl ReplayDetected
      | (true, window') =>
          let nonce := build_nonce (common_iv material) kid seq in
          let aad := make_aad c kid correlation in
          match aead_decrypt (alg_aead (args c)) (aead_key material) nonce aad
                  ciphertext with
          | None => inl DecryptionFailed
          | Some plaintext =>
              if negb (verify (alg_signature (args c)) cred (aad, ciphertext)
                         signature)
              then inl SignatureInvalid
              else
                match decode_message plaintext with
                | None => inl DecryptionFailed
                | Some m =>
                    inr (m,
                         match correlation with
                         | None => Some (FromRequest kid (pm_piv pm))
                         | Some _ => None
                         end,
                         set_windows (<[kid := window']>
                                        (recipient_replay_windows c)) c)
                end
          end
      end
  | _, _, _ => inl UnknownSender
  end.

(** Consecutive [protect] calls on one context, one per message, as the
    request loops of [run_client] and [run_benchmark_client] make them; a
    call that fails leaves the context as it was. *)
Fixpoint protect_calls `{Crypto} (c : Context) (ms : list Message)
  : list (oscore_error + Protection) :=
  match ms with
  | [] => []
  | m :: rest =>
      match protect_steps c m None with
      | inl e => inl e :: protect_calls c rest
      | inr p => inr p :: protect_calls (after p) rest
      end
  end.

End Core.

(** A stand-in for the cryptographic primitives on which the pipeline is
    run: the cipher prepends a tag made of key, nonce and bound sender, the
    signature names the signer and the length signed, the partial sequence
    number carries all eight bytes of the counter. *)
Module Toy.

Fixpoint be_value (b : bytes) (acc : Z) : Z :=
  match b with
  | [] => acc
  | x :: xs => be_value xs (256 * acc + Z.of_N (Byte.to_N x))
  end.

Definition tag (key nonce : bytes) (aad : AssociatedData) : bytes :=
  key ++ nonce ++ aad_sender aad ++
  match aad_binding aad with
  | Some (FromRequest kid piv) => x01 :: kid ++ piv
  | Some (FromEcho token) => x02 :: token
  | None => [x00]
  end.

Definition signer (k : bytes) : Byte.byte := hd x00 k.

Definition signature_of (k : bytes) (msg : AssociatedData * bytes) : bytes :=
  [signer k; Core.byte_of_Z (Z.of_nat (length msg.2))].

#[global] Instance crypto : Crypto := {|
  aead_implemented := fun alg => (alg =? A128GCM)%Z;
  hash_implemented := fun h => String.eqb h sha256;
  kdf := fun _ salt secret info =>
    secret ++ salt ++ info_group info ++ info_sender info ++ info_recipient info ++
    match info_label info with LabelKey => [x4b] | LabelIV => [x49] end;
  aead_encrypt := fun _ key nonce aad pt => tag key nonce aad ++ pt;
  aead_decrypt := fun _ key nonce aad ct =>
    let t := tag key nonce aad in
    if bool_decide (take (length t) ct = t) then Some (drop (length t) ct)
    else None;
  sign := fun _ sk msg => signature_of sk msg;
  verify := fun _ cred msg sig => bool_decide (sig = signature_of cred msg);
  signature_length := fun _ => 2%nat;
  build_nonce := fun iv sid seq => iv ++ sid ++ Core.be_bytes 8 seq;
  partial_iv_length := 8%nat;
  reconstruct := fun _ piv => be_value piv 0;
  encode_message := fun m => Core.byte_of_Z (code m) :: payload m;
  decode_message := fun b =>
    match b with
    | [] => None
    | c :: rest => Some {| code := Z.of_N (Byte.to_N c); options := []; payload := rest |}
    end
|}.

Definition config : SharedConfig :=
  {| cfg_group_id := [x67; x72; x70; x31];
     cfg_master_secret := [x42; x5a]; cfg_master_salt := [x1b];
     cfg_alg_aead := A128GCM; cfg_alg_signature := Ed25519;
     cfg_alg_group_enc := A128GCM;
     cfg_alg_pairwise_key_agreement := None; cfg_hashfun := sha256;
     cfg_client_id := [x43; x31]; cfg_server_id := [x53; x31];
     cfg_gm_private_key := [x0a]; cfg_gm_cred := [x0a; x01];
     cfg_client_private_key := [x0b]; cfg_client_cred := [x0b; x01];
     cfg_server_private_key := [x0c]; cfg_server_cred := [x0c; x01] |}.

(** The request of the demonstration: [GET] with a short payload. *)
Definition hello : Message :=
  {| code := 1; options := []; payload := [x68; x69] |}.

(** A context as [FixedGroupContext(...)] builds it from [a]. *)
Definition fixed_context (a : ContextArgs) (token : bytes) : option Context :=
  match Core.group_context_init a with
  | Returned base =>
      Some (initialize_replay_windows
              (set_echo_recovery token (set_cls FixedGroupContext base)))
  | Raised _ => None
  end.

Definition client : Context :=
  default (mkContext FixedGroupContext (Testing.client_args config) ∅ ∅ None 0
             {| aead_key := []; common_iv := [] |} ∅)
    (fixed_context (Testing.client_args config) [x01]).

Definition server : Context :=
  default (mkContext FixedGroupContext (Testing.server_args config) ∅ ∅ None 0
             {| aead_key := []; common_iv := [] |} ∅)
    (fixed_context (Testing.server_args config) [x02]).

End Toy.


(** ** Worlds on which the credential scripts are run *)

(** No credential file yet. *)
Definition w_fresh : @world toy_platform :=
  {| files := ∅; rng := 7%N; trace := [] |}.

(** A credential file cut short after its first character. *)
Definition w_corrupt : @world toy_platform :=
  {| files := {[ CREDENTIALS_FILE := "{" ]}; rng := 7%N; trace := [] |}.

(** The credentials the three key pairs of [w_fresh] and [w_corrupt] make. *)
Definition toy_credentials : json :=
  credentials_dict
    (repeat (toy_byte 7) 4, [toy_byte 7; x01])
    (repeat (toy_byte 8) 4, [toy_byte 8; x01])
    (repeat (toy_byte 9) 4, [toy_byte 9; x01]).

(** A write is atomic for the readers of [path] when every file system an
    observer can see holds either what the file held before or the complete
    new text. *)
Definition atomic_replace (path : string) (fs : gmap string string)
    (ops : list fs_op) (text : string) : Prop :=
  ∀ st, st ∈ observable_states fs ops →
        st !! path = fs !! path ∨ st !! path = Some text.

(** The reading of the error taxonomy under which a corrupt credential
    file is fatal: the load raises and leaves the world as it found it. *)
Definition fails_on_corrupt_file `{Platform} (load : M json) : Prop :=
  ∀ w text, files w !! CREDENTIALS_FILE = Some text → json_load text = None →
            ∃ e, load w = (Raised e, w).

(** The group members the scripts configure, by identifier. *)
Definition member_ids : list bytes :=
  [client_id GROUP_CONFIG; server_id GROUP_CONFIG].

(** A credential document whose entries are keyed by member identifier. *)
Definition keyed_by_member_id (creds : json) : Prop :=
  ∀ id, id ∈ member_ids → string_of_list_byte id ∈ keys creds.

(** The file system operations of
    [with open(CREDENTIALS_FILE, 'w') as f: json.dump(..., f, indent=2)]. *)
Definition save_ops (text : string) : list fs_op :=
  [OpenTrunc CREDENTIALS_FILE; WriteText CREDENTIALS_FILE text].

(** A base constructor that rejects whatever credentials it is given. *)
Definition rejecting_aiocoap : Aiocoap :=
  {| SimpleGroupContext_init := fun _ => Raised ValueError |}.

(** Context construction that either returns a context or propagates the
    error: it never returns [None]. *)
Definition returns_context_or_raises `{Platform}
    (construct : M (option Context)) : Prop :=
  ∀ w, match (construct w).1 with
       | Returned (Some _) => True
       | Raised _ => True
       | Returned None => False
       end.

Definition is_returned {A} (o : outcome A) : bool :=
  match o with
  | Returned _ => true
  | Raised _ => false
  end.

(** ** Properties of the protection pipeline *)

(** The sequence numbers and nonces of the calls that returned. *)
Fixpoint seqs_of (rs : list (oscore_error + Core.Protection)) : list Z :=
  match rs with
  | [] => []
  | inl _ :: rest => seqs_of rest
  | inr p :: rest => Core.used_seq p :: seqs_of rest
  end.

Fixpoint nonces_of (rs : list (oscore_error + Core.Protection)) : list bytes :=
  match rs with
  | [] => []
  | inl _ :: rest => nonces_of rest
  | inr p :: rest => Core.used_nonce p :: nonces_of rest
  end.

(** The calls on [c], one per message of [ms], yield as many strictly
    increasing sequence numbers and pairwise different nonces. *)
Definition yields_fresh_numbers `{Crypto} (c : Context) (ms : list Message) : Prop :=
  length (seqs_of (Core.protect_calls c ms)) = length ms ∧
  StronglySorted Z.lt (seqs_of (Core.protect_calls c ms)) ∧
  NoDup (nonces_of (Core.protect_calls c ms)).

(** The nonce construction never maps two sequence numbers of the counter's
    range to one nonce. *)
Definition nonce_injective `{Crypto} : Prop :=
  ∀ iv sid s1 s2,
    (0 ≤ s1 ≤ Core.MAX_SEQ)%Z → (0 ≤ s2 ≤ Core.MAX_SEQ)%Z →
    build_nonce iv sid s1 = build_nonce iv sid s2 → s1 = s2.

(** Decryption undoes encryption under the same key, nonce and associated
    data. *)
Definition aead_correct `{Crypto} : Prop :=
  ∀ alg key nonce aad pt,
    aead_decrypt alg key nonce aad (aead_encrypt alg key nonce aad pt) = Some pt.

(** [cred] is the public credential of the private key [sk]: signatures
    made with [sk] have the algorithm's length and verify against [cred]. *)
Definition key_pair `{Crypto} (sk cred : bytes) : Prop :=
  ∀ alg msg,
    length (sign alg sk msg) = signature_length alg ∧
    verify alg cred msg (sign alg sk msg) = true.

Definition codec_correct `{Crypto} (m : Message) : Prop :=
  decode_message (encode_message m) = Some m.

(** Reconstruction is not disturbed by recording what it reconstructed:
    against the high-water mark that results from accepting the number, the
    same partial sequence number gives the same number again. *)
Definition reconstruct_stable `{Crypto} : Prop :=
  ∀ hw piv,
    reconstruct (Some (Z.max (default (reconstruct hw piv) hw)
                         (reconstruct hw piv))) piv =
    reconstruct hw piv.

(** A sender and a matching receiver: built from the same group parameters,
    the receiver knows the sender's credential and holds the sender's key
    material, the sender's counter is not exhausted, and the receiver's
    window for the sender reconstructs and accepts the sender's next
    sequence number. *)
Definition matching `{Crypto} (s r : Context) : Prop :=
  let me := sender_id (args s) in
  let seq := sender_sequence_number s in
  params_of (args s) = params_of (args r) ∧
  key_pair (private_key (args s)) (sender_auth_cred (args s)) ∧
  peers r !! me = Some (sender_auth_cred (args s)) ∧
  recipient_material r !! me = Some (sender_material s) ∧
  (seq < Core.MAX_SEQ)%Z ∧
  ∃ window,
    recipient_replay_windows r !! me = Some window ∧
    reconstruct (ReplayWindow.tracked window) (Core.piv_of seq) = seq ∧
    (ReplayWindow.check_and_record seq window).1 = true.

(** A request and its response make the round trip between [client] and
    [server]: the server unprotects the client's protected request to the
    request itself and gets the handle of the request; the client
    unprotects, with the handle [protect] gave it, the response the server
    protected under its handle to the response itself. *)
Definition round_trips `{Crypto} (client server : Context)
    (request response : Message) : Prop :=
  ∃ pm1 h1 client' server' pm2 h2 server'' client'',
    Core.protect client request None = inr (pm1, h1, client') ∧
    Core.unprotect server pm1 None = inr (request, Some h1, server') ∧
    Core.protect server' response (Some h1) = inr (pm2, h2, server'') ∧
    Core.unprotect client' pm2 (Some h1) = inr (response, None, client'').

(** The toy client after it has used up its sequence numbers. *)
Definition exhausted_client : Context :=
  set_sequence_number Core.MAX_SEQ Toy.client.

Definition succeeded {E A} (r : E + A) : bool :=
  match r with
  | inr _ => true
  | inl _ => false
  end.

(** The request of the demonstration as the toy client protects it. *)
Definition toy_request : ProtectedMessage :=
  match Core.protect Toy.client Toy.hello None with
  | inr (pm, _, _) => pm
  | inl _ => {| pm_kid := []; pm_piv := []; pm_body := [] |}
  end.

(** Unfolds the monad of the scripts. *)
Ltac run :=
  unfold mbind, M_bind, bind, mret, M_ret, ret, raise, try_except,
    lift_outcome, path_exists, read_json, write_json, fs_do, keygen in *;
  cbn [files rng trace fst snd] in *.

(** A constructor run that returned a context in which the replay window
    of every peer of [base] that has one is freshly initialized: the window
    accepts any first sequence number, anchors on it, and then rejects
    it. *)
Definition windows_initialized `{Platform} (run : outcome Context * world)
    (base : Context) : Prop :=
  ∃ c w',
    run = (Returned c, w') ∧
    peers c = peers base ∧
    ∀ peer cred w0,
      peers base !! peer = Some cred →
      recipient_replay_windows base !! peer = Some w0 →
      recipient_replay_windows c !! peer =
        Some (ReplayWindow.initialize_empty w0) ∧
      ∀ seq, ∃ w1,
        ReplayWindow.check_and_record seq (ReplayWindow.initialize_empty w0) =
          (true, w1) ∧
        ReplayWindow.highest w1 = seq ∧
        ReplayWindow.tracked w1 = Some seq ∧
        ReplayWindow.check_and_record seq w1 = (false, w1).

(** ** More of the credential scripts *)

(** [show_credentials_info] of [oscore_group_network_fixed.py]: nothing is
    loaded when the file is absent; otherwise the credentials are loaded
    inside [try: ... except Exception]. *)
Definition show_credentials_info `{Platform} : M unit :=
  present ← path_exists CREDENTIALS_FILE;
  if negb present then ret tt
  else try_except (_ ← NetworkFixed.load_credentials; ret tt) (fun _ => ret tt).

(** The decoder gives back the document that [json.dump] wrote. *)
Definition decodes_own_output `{Platform} (j : json) : Prop :=
  json_load (dumps 2 j) = Some j.

(** [bytes.fromhex(creds[who][field])] as a value: it does not depend on
    the world. *)
Definition hex_field_value (creds : json) (who field : string) : outcome bytes :=
  match getitem creds who with
  | Raised e => Raised e
  | Returned entry =>
      match getitem entry field with
      | Raised e => Raised e
      | Returned (JStr text) =>
          match Hex.fromhex text with
          | Some b => Returned b
          | None => Raised ValueError
          end
      | Returned _ => Raised TypeError
      end
  end.

(** A platform whose key generation fails. *)
Definition keyless_platform : Platform := {|
  Rng := N;
  generate_with_ccs := fun n => (Raised (RuntimeError "no entropy"), n);
  token_bytes := fun len n => (repeat (toy_byte n) len, N.succ n);
  json_load := Json.loads
|}.

Definition w_keyless : @world keyless_platform :=
  @mkWorld keyless_platform ∅ 7%N [].

(** A credential file that holds an empty JSON object. *)
Definition w_wrong_shape : @world toy_platform :=
  {| files := {[ CREDENTIALS_FILE := "{}" ]}; rng := 7%N; trace := [] |}.

(** A credentials document as a member can be handed it: its own entry in
    full, of the other member only the public credential. *)
Definition credentials_for_client (gm cl : bytes * bytes) (server_cred : bytes)
  : json :=
  JObj [("group_manager", credential_entry gm);
        ("client", credential_entry cl);
        ("server", JObj [("credential", JStr (Hex.hex server_cred))])].

Definition credentials_for_server (gm sv : bytes * bytes) (client_cred : bytes)
  : json :=
  JObj [("group_manager", credential_entry gm);
        ("client", JObj [("credential", JStr (Hex.hex client_cred))]);
        ("server", credential_entry sv)].

(** ** The request loops of the clients *)

(** What [response.code.is_successful()] and [response.payload] give. *)
Record Response : Type := {
  is_successful : bool;
  response_payload : bytes
}.

(** What the clients reach through aiocoap, [time] and [psutil]: protecting
    a message with the client context (which advances the context),
    sending a protected request and awaiting the response, reading the
    clock and the resident memory.  The readings are floating-point
    numbers, kept abstract; [Net] is the state of the network, the clock
    and the process. *)
Class Transport : Type := {
  Net : Type;
  Float : Type;
  protect_request : Context → Message → outcome ProtectedMessage * Context;
  send_request : ProtectedMessage → Net → outcome Response * Net;
  time_now : Net → Float * Net;
  elapsed_ms : Float → Float → Float;
  memory_kb : Net → Float * Net;
  float_zero : Float;
  float_gt : Float → Float → bool
}.

Definition GET : Z := 1.
Definition POST : Z := 2.

(** CoAP option number of Uri-Path. *)
Definition URI_PATH : Z := 11.

Definition uri_path (segments : list string) : list (Z * bytes) :=
  (fun seg => (URI_PATH, list_byte_of_string seg)) <$> segments.

Module BenchmarkClient.

(** [BenchmarkStats]: the latencies recorded and the peak memory seen. *)
Record BenchmarkStats `{Transport} : Type := {
  latencies : list Float;
  peak_memory : Float
}.

(** [record_latency]. *)
Definition record_latency `{Transport} (stats : BenchmarkStats)
    (latency_ms : Float) (net : Net) : BenchmarkStats * Net :=
  let '(current_memory, net') := memory_kb net in
  ({| latencies := latencies stats ++ [latency_ms];
      peak_memory := if float_gt current_memory (peak_memory stats)
                     then current_memory else peak_memory stats |}, net').

Record State `{Transport} : Type := {
  client_context : Context;
  net : Net;
  stats : BenchmarkStats;
  successful_requests : nat;
  failed_requests : nat
}.

(** The request of the benchmark: [GET /hola] with an empty payload. *)
Definition hola_request : Message :=
  {| code := GET; options := uri_path ["hola"]; payload := [] |}.

(** One warm-up request: whatever is raised is swallowed, nothing is
    counted. *)
Definition warmup `{Transport} (st : State) : State :=
  match protect_request (client_context st) hola_request with
  | (Raised _, c) =>
      {| client_context := c; net := net st; stats := stats st;
         successful_requests := successful_requests st;
         failed_requests := failed_requests st |}
  | (Returned protected_request, c) =>
      let '(_, n) := send_request protected_request (net st) in
      {| client_context := c; net := n; stats := stats st;
         successful_requests := successful_requests st;
         failed_requests := failed_requests st |}
  end.

(** The [except Exception] branch of a measured request. *)
Definition count_failure `{Transport} (start_time : Float) (c : Context)
    (n : Net) (st : State) : State :=
  let '(t, n1) := time_now n in
  let '(stats', n2) := record_latency (stats st) (elapsed_ms t start_time) n1 in
  {| client_context := c; net := n2; stats := stats';
     successful_requests := successful_requests st;
     failed_requests := S (failed_requests st) |}.

(** One measured request of the benchmark loop. *)
Definition measured `{Transport} (st : State) : State :=
  let '(start_time, n0) := time_now (net st) in
  match protect_request (client_context st) hola_request with
  | (Raised _, c) => count_failure start_time c n0 st
  | (Returned protected_request, c) =>
      match send_request protected_request n0 with
      | (Raised _, n1) => count_failure start_time c n1 st
      | (Returned response, n1) =>
          let '(t, n2) := time_now n1 in
          let '(stats', n3) :=
            record_latency (stats st) (elapsed_ms t start_time) n2 in
          if is_successful response then
            {| client_context := c; net := n3; stats := stats';
               successful_requests := S (successful_requests st);
               failed_requests := failed_requests st |}
          else
            {| client_context := c; net := n3; stats := stats';
               successful_requests := successful_requests st;
               failed_requests := S (failed_requests st) |}
      end
  end.

(** The two loops of [run_benchmark_client]: five warm-up requests, then
    [range(num_requests)] measured ones. *)
Definition run_benchmark_requests `{Transport} (num_requests : Z)
    (c : Context) (n : Net) : State :=
  let start :=
    {| client_context := c; net := n;
       stats := {| latencies := []; peak_memory := float_zero |};
       successful_requests := 0; failed_requests := 0 |} in
  Nat.iter (Z.to_nat num_requests) measured (Nat.iter 5 warmup start).

End BenchmarkClient.

Module Client.

(** The closing summary of [run_client]. *)
Record Summary : Type := {
  requests_sent : nat;
  requests_successful : nat
}.

Definition hello_request : Message :=
  {| code := GET; options := uri_path ["hello"];
     payload := list_byte_of_string "Hello from OSCORE Group client!" |}.

Definition data_request : Message :=
  {| code := POST; options := uri_path ["api"; "data"];
     payload := list_byte_of_string "Data from Group client for processing" |}.

(** The message of iteration [i] of the third test. *)
Definition test_message (i : nat) : Message :=
  {| code := GET; options := uri_path ["test"];
     payload := list_byte_of_string
                  ("OSCORE Group test message #" +:+ pretty (S i)) |}.

(** A request whose outcome is only logged: tests 1 and 2.  [None] when
    [protect] raises, which leaves the test sequence. *)
Definition logged_request `{Transport} (m : Message) (c : Context) (n : Net)
  : option (Context * Net) :=
  match protect_request c m with
  | (Raised _, _) => None
  | (Returned protected_request, c') =>
      let '(_, n') := send_request protected_request n in
      Some (c', n')
  end.

(** Iterations [i], [i+1], ... of the loop of test 3, [k] of them, counting
    the successful responses. *)
Fixpoint test_loop `{Transport} (k i : nat) (c : Context) (n : Net)
    (successful_requests : nat) : option (nat * Context * Net) :=
  match k with
  | O => Some (successful_requests, c, n)
  | S k' =>
      match protect_request c (test_message i) with
      | (Raised _, _) => None
      | (Returned protected_test, c') =>
          match send_request protected_test n with
          | (Returned test_response, n') =>
              test_loop k' (S i) c' n'
                (if is_successful test_response
                 then S successful_requests else successful_requests)
          | (Raised _, n') => test_loop k' (S i) c' n' successful_requests
          end
      end
  end.

(** What became of one request: whether a response came back and its code
    was successful. *)
Definition answered_successfully (o : outcome Response) : bool :=
  match o with
  | Returned response => is_successful response
  | Raised _ => false
  end.

(** What [await context.request(protected_test).response] gave in the
    iterations [i], [i+1], ... of the loop of test 3, in order, up to the
    first [protect] that raises. *)
Fixpoint test_responses `{Transport} (k i : nat) (c : Context) (n : Net)
  : list (outcome Response) :=
  match k with
  | O => []
  | S k' =>
      match protect_request c (test_message i) with
      | (Raised _, _) => []
      | (Returned protected_test, c') =>
          let '(o, n') := send_request protected_test n in
          o :: test_responses k' (S i) c' n'
      end
  end.

(** The three tests of [run_client] and its summary; [None] when [protect]
    raised and the outer handler took over. *)
Definition run_client_requests `{Transport} (c : Context) (n : Net)
  : option Summary :=
  match logged_request hello_request c n with
  | None => None
  | Some (c1, n1) =>
      match logged_request data_request c1 n1 with
      | None => None
      | Some (c2, n2) =>
          match test_loop 5 0 c2 n2 0 with
          | None => None
          | Some (successful_requests, _, _) =>
              Some {| requests_sent := 7;
                      requests_successful := successful_requests + 2 |}
          end
      end
  end.

End Client.

(** A transport on which the server never answers: every request raises;
    messages are protected by the model of the pipeline over the toy
    primitives. *)
Definition silent_transport : Transport := {|
  Net := nat;
  Float := Z;
  protect_request := fun c m =>
    match Core.protect c m None with
    | inr (pm, _, c') => (Returned pm, c')
    | inl e => (Raised (OscoreError e), c)
    end;
  send_request := fun _ n => (Raised OSError, S n);
  time_now := fun n => (Z.of_nat n, S n);
  elapsed_ms := fun t t0 => ((t - t0) * 1000)%Z;
  memory_kb := fun n => (Z.of_nat n, n);
  float_zero := 0%Z;
  float_gt := fun a b => (b <? a)%Z
|}.

(** ** Facts about hexadecimal encoding *)

Lemma fromhex_byte_hex (b : Byte.byte) (rest : string) :
  Hex.fromhex (Hex.byte_hex b +:+ rest) =
  match Hex.fromhex rest with Some bs => Some (b :: bs) | None => None end.
Proof. destruct b; reflexivity. Qed.

Lemma fromhex_hex (b : bytes) : Hex.fromhex (Hex.hex b) = Some b.
Proof.
  induction b as [|x xs IH]; [reflexivity|].
  cbn [Hex.hex]. rewrite fromhex_byte_hex, IH. reflexivity.
Qed.

(** ** The credential store *)

Lemma insert_after_truncate (fs : gmap string string) (p d : string) :
  apply_op (WriteText p d) (apply_op (OpenTrunc p) fs) = <[p := d]> fs.
Proof.
  cbn [apply_op]. rewrite lookup_insert_eq. cbn. by rewrite insert_insert_eq.
Qed.

(** What a run of [generate_and_save_credentials] leaves behind. *)
Lemma generate_and_save_returned `{Platform} (w w' : world) (creds : json) :
  NetworkFixed.generate_and_save_credentials w = (Returned creds, w') →
  ∃ gm client server,
    creds = credentials_dict gm client server ∧
    files w' = <[CREDENTIALS_FILE := dumps 2 creds]> (files w) ∧
    trace w' = trace w ++ [OpenTrunc CREDENTIALS_FILE;
                           WriteText CREDENTIALS_FILE (dumps 2 creds)].
Proof.
  unfold NetworkFixed.generate_and_save_credentials. run.
  destruct (generate_with_ccs (rng w)) as [[gm|e1] g1]; [|discriminate].
  cbn [files rng trace].
  destruct (generate_with_ccs g1) as [[cl|e2] g2]; [|discriminate].
  cbn [files rng trace].
  destruct (generate_with_ccs g2) as [[sv|e3] g3]; [|discriminate].
  cbn [files rng trace].
  intros [= <- <-]. exists gm, cl, sv. cbn [files trace].
  split; [reflexivity|]. split.
  - apply insert_after_truncate.
  - by rewrite <- app_assoc.
Qed.

Lemma load_credentials_regenerates `{Platform} (w : world) :
  files w !! CREDENTIALS_FILE = None ∨
  (∃ text, files w !! CREDENTIALS_FILE = Some text ∧ json_load text = None) →
  NetworkFixed.load_credentials w = NetworkFixed.generate_and_save_credentials w.
Proof.
  intros [Hnone|(text & Hfile & Hbad)]; unfold NetworkFixed.load_credentials; run.
  - rewrite Hnone. reflexivity.
  - rewrite bool_decide_eq_true_2 by eauto. cbn [negb]. cbv beta.
    rewrite Hfile, Hbad. reflexivity.
Qed.

Lemma load_or_create_regenerates `{Platform} (w : world) :
  files w !! CREDENTIALS_FILE = None ∨
  (∃ text, files w !! CREDENTIALS_FILE = Some text ∧ json_load text = None) →
  Benchmark.load_or_create_credentials w =
  NetworkFixed.generate_and_save_credentials w.
Proof.
  intros [Hnone|(text & Hfile & Hbad)];
    unfold Benchmark.load_or_create_credentials,
      NetworkFixed.generate_and_save_credentials; run.
  - rewrite Hnone. reflexivity.
  - rewrite bool_decide_eq_true_2 by eauto. cbv beta iota.
    rewrite Hfile, Hbad. reflexivity.
Qed.

(** C6, as the claim states it, fails: on a credential file that holds only
    an opening brace, [load_credentials] and [load_or_create_credentials] do
    not raise; they return freshly generated credentials and overwrite the
    file with them. *)
Lemma C6_corrupt_file_is_regenerated :
  files w_corrupt !! CREDENTIALS_FILE = Some "{" ∧
  json_load "{" = None ∧
  ¬ fails_on_corrupt_file NetworkFixed.load_credentials ∧
  ¬ fails_on_corrupt_file Benchmark.load_or_create_credentials ∧
  (NetworkFixed.load_credentials w_corrupt).1 = Returned toy_credentials ∧
  files (NetworkFixed.load_credentials w_corrupt).2 !! CREDENTIALS_FILE =
    Some (dumps 2 toy_credentials).
Proof.
  assert (Hfile : files w_corrupt !! CREDENTIALS_FILE = Some "{")
    by (vm_compute; reflexivity).
  assert (Hbad : json_load "{" = None) by (vm_compute; reflexivity).
  split; [exact Hfile|]. split; [exact Hbad|].
  assert (Hnet : (NetworkFixed.load_credentials w_corrupt).1 =
                 Returned toy_credentials) by (vm_compute; reflexivity).
  assert (Hben : (Benchmark.load_or_create_credentials w_corrupt).1 =
                 Returned toy_credentials) by (vm_compute; reflexivity).
  split; [|split; [|split]].
  - intros Hc. destruct (Hc w_corrupt "{" Hfile Hbad) as [e He].
    rewrite He in Hnet. discriminate Hnet.
  - intros Hc. destruct (Hc w_corrupt "{" Hfile Hbad) as [e He].
    rewrite He in Hben. discriminate Hben.
  - exact Hnet.
  - vm_compute. reflexivity.
Qed.

(** C6, amended: when the credential file exists but cannot be decoded, both
    loaders behave exactly as [generate_and_save_credentials]: nothing is
    raised on account of the file, and when key generation succeeds the
    fresh credentials are returned and the file is overwritten with them. *)
Theorem C6_load_regenerates_on_corrupt_file `{Platform} (w : world)
    (text : string) :
  files w !! CREDENTIALS_FILE = Some text →
  json_load text = None →
  NetworkFixed.load_credentials w = NetworkFixed.generate_and_save_credentials w ∧
  Benchmark.load_or_create_credentials w =
    NetworkFixed.generate_and_save_credentials w ∧
  ∀ creds w',
    NetworkFixed.load_credentials w = (Returned creds, w') →
    (∃ gm client server, creds = credentials_dict gm client server) ∧
    files w' !! CREDENTIALS_FILE = Some (dumps 2 creds).
Proof.
  intros Hfile Hbad.
  assert (Hre : NetworkFixed.load_credentials w =
                NetworkFixed.generate_and_save_credentials w)
    by (apply load_credentials_regenerates; eauto).
  split; [exact Hre|]. split; [apply load_or_create_regenerates; eauto|].
  intros creds w' Hrun. rewrite Hre in Hrun.
  destruct (generate_and_save_returned _ _ _ Hrun)
    as (gm & cl & sv & Hc & Hf & _).
  split; [eauto|]. rewrite Hf. apply lookup_insert_eq.
Qed.

(** C6, amended, on the credential file cut short after its first
    character. *)
Lemma C6_load_regenerates_witness :
  NetworkFixed.load_credentials w_corrupt =
    NetworkFixed.generate_and_save_credentials w_corrupt ∧
  Benchmark.load_or_create_credentials w_corrupt =
    NetworkFixed.generate_and_save_credentials w_corrupt ∧
  ∀ creds w',
    NetworkFixed.load_credentials w_corrupt = (Returned creds, w') →
    (∃ gm client server, creds = credentials_dict gm client server) ∧
    files w' !! CREDENTIALS_FILE = Some (dumps 2 creds).
Proof.
  apply (C6_load_regenerates_on_corrupt_file w_corrupt "{");
    vm_compute; reflexivity.
Defined.

(** C7, as the claim states it, fails: on the first run (no credential
    file) the store opens the credential file itself for writing and then
    writes into it; between the two steps an observer sees an empty
    credential file, which [json.load] rejects.  Nothing is renamed. *)
Lemma C7_write_is_not_atomic :
  trace (NetworkFixed.generate_and_save_credentials w_fresh).2 =
    save_ops (dumps 2 toy_credentials) ∧
  apply_op (OpenTrunc CREDENTIALS_FILE) (files w_fresh) !! CREDENTIALS_FILE =
    Some EmptyString ∧
  json_load EmptyString = None ∧
  ¬ atomic_replace CREDENTIALS_FILE (files w_fresh)
      (save_ops (dumps 2 toy_credentials)) (dumps 2 toy_credentials).
Proof.
  assert (Hmid : apply_op (OpenTrunc CREDENTIALS_FILE) (files w_fresh)
                   !! CREDENTIALS_FILE = Some EmptyString)
    by (vm_compute; reflexivity).
  split; [vm_compute; reflexivity|]. split; [exact Hmid|].
  split; [vm_compute; reflexivity|].
  intros Hatomic.
  destruct (Hatomic (apply_op (OpenTrunc CREDENTIALS_FILE) (files w_fresh)))
    as [Hold|Hnew].
  - cbn [save_ops observable_states]. apply list_elem_of_further, list_elem_of_here.
  - rewrite Hmid in Hold. cbn [w_fresh files] in Hold.
    rewrite lookup_empty in Hold. discriminate Hold.
  - rewrite Hmid in Hnew. injection Hnew as Hnew.
    assert (Hne : dumps 2 toy_credentials ≠ EmptyString)
      by (vm_compute; discriminate).
    by apply Hne.
Qed.

(** C7, amended: every write of the credential file is an open-for-writing
    of the credential file itself, which truncates it, followed by a write
    of the JSON text into it; no other path is touched and nothing is
    renamed, so between the two steps the file is observably empty. *)
Theorem C7_write_truncates_then_writes `{Platform} (w w' : world) (creds : json) :
  NetworkFixed.generate_and_save_credentials w = (Returned creds, w') →
  trace w' = trace w ++ save_ops (dumps 2 creds) ∧
  (∀ st p, st ∈ observable_states (files w) (save_ops (dumps 2 creds)) →
           p ≠ CREDENTIALS_FILE → st !! p = files w !! p) ∧
  (∃ st, st ∈ observable_states (files w) (save_ops (dumps 2 creds)) ∧
         st !! CREDENTIALS_FILE = Some EmptyString) ∧
  files w' !! CREDENTIALS_FILE = Some (dumps 2 creds) ∧
  (files w !! CREDENTIALS_FILE = None →
   NetworkFixed.load_credentials w = (Returned creds, w') ∧
   Benchmark.load_or_create_credentials w = (Returned creds, w')).
Proof.
  intros Hrun.
  destruct (generate_and_save_returned _ _ _ Hrun)
    as (gm & cl & sv & Hc & Hf & Ht).
  split; [exact Ht|]. split; [|split; [|split]].
  - intros st p Hst Hp. cbn [save_ops observable_states] in Hst.
    rewrite insert_after_truncate in Hst. cbn [apply_op] in Hst.
    repeat (apply elem_of_cons in Hst as [->|Hst]);
      [reflexivity| by rewrite lookup_insert_ne| by rewrite lookup_insert_ne|].
    by apply elem_of_nil in Hst.
  - exists (apply_op (OpenTrunc CREDENTIALS_FILE) (files w)). split.
    + cbn [save_ops observable_states].
      apply list_elem_of_further, list_elem_of_here.
    + cbn [apply_op]. apply lookup_insert_eq.
  - rewrite Hf. apply lookup_insert_eq.
  - intros Hnone. split.
    + rewrite load_credentials_regenerates by eauto. exact Hrun.
    + rewrite load_or_create_regenerates by eauto. exact Hrun.
Qed.

(** C7, amended, on the first run, without a credential file. *)
Lemma C7_write_truncates_witness :
  ∃ w' creds,
    NetworkFixed.generate_and_save_credentials w_fresh = (Returned creds, w') ∧
    trace w' = trace w_fresh ++ save_ops (dumps 2 creds) ∧
    ∃ st, st ∈ observable_states (files w_fresh) (save_ops (dumps 2 creds)) ∧
          st !! CREDENTIALS_FILE = Some EmptyString.
Proof.
  destruct (NetworkFixed.generate_and_save_credentials w_fresh)
    as [[creds|e] w'] eqn:Hrun.
  - exists w', creds. split; [reflexivity|].
    destruct (C7_write_truncates_then_writes w_fresh w' creds Hrun)
      as (Ht & _ & Hst & _).
    split; [exact Ht | exact Hst].
  - exfalso.
    assert (Hret : (NetworkFixed.generate_and_save_credentials w_fresh).1 =
                   Returned toy_credentials) by (vm_compute; reflexivity).
    rewrite Hrun in Hret. discriminate Hret.
Defined.

(** C9, as the claim states it, fails: the entries of the credential file
    are keyed by the fixed names "group_manager", "client" and "server"; the
    member identifier "C1" is no key of the document. *)
Lemma C9_not_keyed_by_member_id :
  (NetworkFixed.generate_and_save_credentials w_fresh).1 =
    Returned toy_credentials ∧
  files (NetworkFixed.generate_and_save_credentials w_fresh).2
    !! CREDENTIALS_FILE = Some (dumps 2 toy_credentials) ∧
  keys toy_credentials = ["group_manager"; "client"; "server"] ∧
  string_of_list_byte (client_id GROUP_CONFIG) = "C1" ∧
  getitem toy_credentials "C1" = Raised (KeyError "C1") ∧
  ¬ keyed_by_member_id toy_credentials.
Proof.
  split; [vm_compute; reflexivity|]. split; [vm_compute; reflexivity|].
  split; [reflexivity|]. split; [reflexivity|]. split; [reflexivity|].
  intros Hkeyed.
  specialize (Hkeyed (client_id GROUP_CONFIG) (list_elem_of_here _ _)).
  cbn in Hkeyed.
  repeat (apply elem_of_cons in Hkeyed as [Heq|Hkeyed]; [discriminate Heq|]).
  by apply elem_of_nil in Hkeyed.
Qed.

(** C9, amended: the credential file holds exactly three entries, in this
    order and keyed by these fixed names: "group_manager", "client",
    "server".  The entries are made of the three key pairs that
    [generate_with_ccs] returned, drawn in this order: each holds, under
    "private_key" and "credential", the hexadecimal encoding of the raw
    private key bytes and of the raw public credential bytes of its pair,
    from which [bytes.fromhex] gives the bytes back.  The file holds the
    document as [json.dump] writes it, and [load_or_create_credentials] of
    the benchmark writes the same file when it finds none. *)
Theorem C9_credential_file_schema `{Platform} (w w' : world) (creds : json) :
  NetworkFixed.generate_and_save_credentials w = (Returned creds, w') →
  ∃ (gm client server : bytes * bytes) (g1 g2 g3 : Rng),
    generate_with_ccs (rng w) = (Returned gm, g1) ∧
    generate_with_ccs g1 = (Returned client, g2) ∧
    generate_with_ccs g2 = (Returned server, g3) ∧
    rng w' = g3 ∧
    creds =
      JObj [("group_manager",
             JObj [("private_key", JStr (Hex.hex gm.1));
                   ("credential", JStr (Hex.hex gm.2))]);
            ("client",
             JObj [("private_key", JStr (Hex.hex client.1));
                   ("credential", JStr (Hex.hex client.2))]);
            ("server",
             JObj [("private_key", JStr (Hex.hex server.1));
                   ("credential", JStr (Hex.hex server.2))])] ∧
    keys creds = ["group_manager"; "client"; "server"] ∧
    files w' !! CREDENTIALS_FILE = Some (dumps 2 creds) ∧
    Forall (fun raw => Hex.fromhex (Hex.hex raw) = Some raw)
      [gm.1; gm.2; client.1; client.2; server.1; server.2] ∧
    (files w !! CREDENTIALS_FILE = None →
     Benchmark.load_or_create_credentials w = (Returned creds, w')).
Proof.
  intros Hrun.
  assert (Hbench : files w !! CREDENTIALS_FILE = None →
                   Benchmark.load_or_create_credentials w = (Returned creds, w')).
  { intros Hnone. rewrite load_or_create_regenerates by (by left). exact Hrun. }
  destruct (generate_and_save_returned _ _ _ Hrun) as (_ & _ & _ & _ & Hf & _).
  revert Hrun Hbench. unfold NetworkFixed.generate_and_save_credentials. run.
  destruct (generate_with_ccs (rng w)) as [[gm|e1] g1] eqn:Hgm; [|discriminate].
  cbn [files rng trace].
  destruct (generate_with_ccs g1) as [[cl|e2] g2] eqn:Hcl; [|discriminate].
  cbn [files rng trace].
  destruct (generate_with_ccs g2) as [[sv|e3] g3] eqn:Hsv; [|discriminate].
  cbn [files rng trace].
  intros [= <- <-] Hbench. exists gm, cl, sv, g1, g2, g3.
  split; [reflexivity|]. split; [exact Hcl|]. split; [exact Hsv|].
  split; [reflexivity|]. split; [reflexivity|]. split; [reflexivity|].
  split; [cbn [files] in Hf |- *; rewrite Hf; apply lookup_insert_eq|].
  split; [|exact Hbench].
  repeat (apply Forall_cons; split; [apply fromhex_hex|]). apply Forall_nil.
  exact I.
Qed.

(** C9, amended, on the first run, without a credential file: the key
    pairs of the toy generator are the ones in the file. *)
Lemma C9_credential_file_schema_witness :
  ∃ w' creds,
    NetworkFixed.generate_and_save_credentials w_fresh = (Returned creds, w') ∧
    files w' !! CREDENTIALS_FILE = Some (dumps 2 creds) ∧
    keys creds = ["group_manager"; "client"; "server"] ∧
    getitem creds "client" =
      Returned (JObj [("private_key", JStr (Hex.hex (repeat (toy_byte 8) 4)));
                      ("credential", JStr (Hex.hex [toy_byte 8; x01]))]).
Proof.
  destruct (NetworkFixed.generate_and_save_credentials w_fresh)
    as [[creds|e] w'] eqn:Hrun.
  - exists w', creds. split; [reflexivity|].
    destruct (C9_credential_file_schema w_fresh w' creds Hrun)
      as (gm & cl & sv & g1 & g2 & g3 & Hgm & Hcl & Hsv & _ & Hc & Hk & Hf & _).
    split; [exact Hf|]. split; [exact Hk|].
    cbn in Hgm. injection Hgm as <- <-.
    cbn in Hcl. injection Hcl as <- <-.
    rewrite Hc. reflexivity.
  - exfalso.
    assert (Hret : (NetworkFixed.generate_and_save_credentials w_fresh).1 =
                   Returned toy_credentials) by (vm_compute; reflexivity).
    rewrite Hrun in Hret. discriminate Hret.
Defined.

(** ** Context construction *)

Lemma load_or_create_is_load `{Platform} (w : world) :
  Benchmark.load_or_create_credentials w = NetworkFixed.load_credentials w.
Proof.
  destruct (files w !! CREDENTIALS_FILE) as [text|] eqn:Hfile.
  - destruct (json_load text) as [j|] eqn:Hload.
    + unfold Benchmark.load_or_create_credentials, NetworkFixed.load_credentials.
      run. rewrite bool_decide_eq_true_2 by eauto. cbv beta iota. cbn [negb].
      cbv beta. rewrite Hfile, Hload. reflexivity.
    + rewrite load_or_create_regenerates, load_credentials_regenerates; eauto.
  - rewrite load_or_create_regenerates, load_credentials_regenerates; eauto.
Qed.

Lemma subclass_init_raised `{Platform} `{Aiocoap} k a e (w : world) :
  SimpleGroupContext_init a = Raised e →
  subclass_init k a w = (Raised e, w).
Proof. intros Hinit. unfold subclass_init. run. rewrite Hinit. reflexivity. Qed.

Lemma subclass_init_returned `{Platform} `{Aiocoap} k a base (w : world) :
  SimpleGroupContext_init a = Returned base →
  subclass_init k a w =
  (Returned (initialize_replay_windows
               (set_echo_recovery (token_bytes 8 (rng w)).1 (set_cls k base))),
   {| files := files w; rng := (token_bytes 8 (rng w)).2; trace := trace w |}).
Proof.
  intros Hinit. unfold subclass_init. run. rewrite Hinit.
  destruct (token_bytes 8 (rng w)) as [t g]. reflexivity.
Qed.

(** C5, as the claim states it, fails: when the base constructor raises,
    [create_group_context] neither returns a context nor propagates the
    error; it returns [None], on which [run_server] stops. *)
Lemma C5_failure_becomes_None :
  (@NetworkFixedContext.create_group_context toy_platform rejecting_aiocoap
     false w_fresh).1 = Returned None ∧
  (@NetworkFixedContext.run_server toy_platform rejecting_aiocoap w_fresh).1 =
    Returned ServerAborted ∧
  ¬ returns_context_or_raises
      (@NetworkFixedContext.create_group_context toy_platform rejecting_aiocoap
         false).
Proof.
  assert (Hnone : (@NetworkFixedContext.create_group_context toy_platform
                     rejecting_aiocoap false w_fresh).1 = Returned None)
    by (vm_compute; reflexivity).
  split; [exact Hnone|]. split; [vm_compute; reflexivity|].
  intros Hclaim. specialize (Hclaim w_fresh). rewrite Hnone in Hclaim.
  exact Hclaim.
Qed.

(** C5, amended: a failure of the context constructor is caught by
    [create_group_context], which returns [None] to its caller instead of
    propagating the error; [run_server] and [run_client] check for [None]
    and stop.  A failure while the credentials are loaded or hex-decoded
    happens before the handler and propagates, through [run_server] and
    [run_client] too.  [create_benchmark_context] has no handler and
    propagates all three kinds of failure.  When the constructor succeeds a
    context is returned, with which [run_server] and [run_client] go on. *)
Theorem C5_constructor_failure_returns_None `{Platform} `{Aiocoap}
    (is_client : bool) (w : world) :
  (∀ e w1,
     NetworkFixed.load_credentials w = (Raised e, w1) →
     NetworkFixedContext.create_group_context is_client w = (Raised e, w1) ∧
     BenchmarkContext.create_benchmark_context is_client w = (Raised e, w1) ∧
     NetworkFixedContext.run_server w = (Raised e, w1) ∧
     NetworkFixedContext.run_client w = (Raised e, w1)) ∧
  (∀ creds w1,
     NetworkFixed.load_credentials w = (Returned creds, w1) →
     (∀ e w2,
        member_args creds is_client w1 = (Raised e, w2) →
        NetworkFixedContext.create_group_context is_client w = (Raised e, w2) ∧
        BenchmarkContext.create_benchmark_context is_client w = (Raised e, w2) ∧
        (is_client = false →
         NetworkFixedContext.run_server w = (Raised e, w2)) ∧
        (is_client = true →
         NetworkFixedContext.run_client w = (Raised e, w2))) ∧
     (∀ a w2,
        member_args creds is_client w1 = (Returned a, w2) →
        (∀ e, SimpleGroupContext_init a = Raised e →
              NetworkFixedContext.create_group_context is_client w =
                (Returned None, w2) ∧
              BenchmarkContext.create_benchmark_context is_client w =
                (Raised e, w2) ∧
              (is_client = false →
               NetworkFixedContext.run_server w = (Returned ServerAborted, w2)) ∧
              (is_client = true →
               NetworkFixedContext.run_client w = (Returned ClientAborted, w2))) ∧
        (∀ base, SimpleGroupContext_init a = Returned base →
                 ∃ c c' w3,
                   NetworkFixedContext.create_group_context is_client w =
                     (Returned (Some c), w3) ∧
                   BenchmarkContext.create_benchmark_context is_client w =
                     (Returned c', w3) ∧
                   (is_client = false →
                    NetworkFixedContext.run_server w =
                      (Returned (ServerStarted c), w3)) ∧
                   (is_client = true →
                    NetworkFixedContext.run_client w =
                      (Returned (ClientStarted c), w3))))).
Proof.
  assert (Hserver : ∀ r w', NetworkFixedContext.create_group_context false w = (r, w') →
            NetworkFixedContext.run_server w =
            match r with
            | Raised e => (Raised e, w')
            | Returned None => (Returned ServerAborted, w')
            | Returned (Some c) => (Returned (ServerStarted c), w')
            end).
  { intros r w' Hc. unfold NetworkFixedContext.run_server, mbind, M_bind, bind.
    rewrite Hc. by destruct r as [[c|]|e]. }
  assert (Hclient : ∀ r w', NetworkFixedContext.create_group_context true w = (r, w') →
            NetworkFixedContext.run_client w =
            match r with
            | Raised e => (Raised e, w')
            | Returned None => (Returned ClientAborted, w')
            | Returned (Some c) => (Returned (ClientStarted c), w')
            end).
  { intros r w' Hc. unfold NetworkFixedContext.run_client, mbind, M_bind, bind.
    rewrite Hc. by destruct r as [[c|]|e]. }
  split.
  - intros e w1 Hload.
    assert (Hcreate : ∀ b, NetworkFixedContext.create_group_context b w =
                           (Raised e, w1)).
    { intros b. unfold NetworkFixedContext.create_group_context.
      unfold mbind at 1, M_bind, bind at 1. by rewrite Hload. }
    split; [apply Hcreate|]. split.
    + unfold BenchmarkContext.create_benchmark_context.
      unfold mbind at 1, M_bind, bind at 1.
      by rewrite load_or_create_is_load, Hload.
    + split; [exact (Hserver _ _ (Hcreate false))
             |exact (Hclient _ _ (Hcreate true))].
  - intros creds w1 Hload. split.
    + intros e w2 Hargs.
      assert (Hcreate : NetworkFixedContext.create_group_context is_client w =
                        (Raised e, w2)).
      { unfold NetworkFixedContext.create_group_context.
        unfold mbind at 1 2, M_bind, bind at 1 2. by rewrite Hload, Hargs. }
      split; [exact Hcreate|]. split.
      * unfold BenchmarkContext.create_benchmark_context.
        unfold mbind, M_bind, bind.
        by rewrite load_or_create_is_load, Hload, Hargs.
      * split; intros ->; [exact (Hserver _ _ Hcreate)|exact (Hclient _ _ Hcreate)].
    + intros a w2 Hargs. split.
      * intros e Hinit.
        assert (Hcreate : NetworkFixedContext.create_group_context is_client w =
                          (Returned None, w2)).
        { unfold NetworkFixedContext.create_group_context.
          unfold mbind at 1 2, M_bind, bind at 1 2. rewrite Hload, Hargs.
          unfold try_except, mbind, M_bind, bind, FixedGroupContext_init.
          rewrite (subclass_init_raised _ _ e) by exact Hinit. reflexivity. }
        split; [exact Hcreate|]. split.
        -- unfold BenchmarkContext.create_benchmark_context.
           unfold mbind, M_bind, bind. rewrite load_or_create_is_load, Hload, Hargs.
           unfold BenchmarkGroupContext_init. apply subclass_init_raised, Hinit.
        -- split; intros ->;
             [exact (Hserver _ _ Hcreate)|exact (Hclient _ _ Hcreate)].
      * intros base Hinit.
        assert (Hcreate : NetworkFixedContext.create_group_context is_client w =
          (Returned (Some (initialize_replay_windows
                             (set_echo_recovery (token_bytes 8 (rng w2)).1
                                (set_cls FixedGroupContext base)))),
           {| files := files w2; rng := (token_bytes 8 (rng w2)).2;
              trace := trace w2 |})).
        { unfold NetworkFixedContext.create_group_context.
          unfold mbind at 1 2, M_bind, bind at 1 2. rewrite Hload, Hargs.
          unfold try_except, mbind, M_bind, bind, FixedGroupContext_init.
          rewrite (subclass_init_returned _ _ base) by exact Hinit. reflexivity. }
        eexists _, _, _. split; [exact Hcreate|]. split.
        -- unfold BenchmarkContext.create_benchmark_context.
           unfold mbind, M_bind, bind. rewrite load_or_create_is_load, Hload, Hargs.
           unfold BenchmarkGroupContext_init.
           rewrite (subclass_init_returned _ _ base) by exact Hinit.
           reflexivity.
        -- split; intros ->;
             [exact (Hserver _ _ Hcreate)|exact (Hclient _ _ Hcreate)].
Qed.

(** C5, amended, for the server and the client on a first run with a base
    constructor that rejects its credentials. *)
Lemma C5_constructor_failure_witness :
  ∃ w2,
    @NetworkFixedContext.create_group_context toy_platform rejecting_aiocoap
      false w_fresh = (Returned None, w2) ∧
    @NetworkFixedContext.run_server toy_platform rejecting_aiocoap w_fresh =
      (Returned ServerAborted, w2).
Proof.
  destruct (NetworkFixed.load_credentials w_fresh) as [[creds|e] w1] eqn:Hload.
  - assert (Hcreds : (NetworkFixed.load_credentials w_fresh).1 =
                     Returned toy_credentials) by (vm_compute; reflexivity).
    rewrite Hload in Hcreds. injection Hcreds as ->.
    destruct (member_args toy_credentials false w1) as [[a|e] w2] eqn:Hargs.
    + destruct (@C5_constructor_failure_returns_None toy_platform
                  rejecting_aiocoap false w_fresh) as [_ Hloaded].
      destruct (Hloaded toy_credentials w1 Hload) as [_ Hdecoded].
      destruct (Hdecoded a w2 Hargs) as [Hfail _].
      destruct (Hfail ValueError eq_refl) as (Hcreate & _ & Hrun & _).
      exists w2. split; [exact Hcreate | exact (Hrun eq_refl)].
    + exfalso.
      assert (Hret : is_returned (member_args toy_credentials false w1).1 = true)
        by (vm_compute; reflexivity).
      rewrite Hargs in Hret. discriminate Hret.
  - exfalso.
    assert (Hret : is_returned (NetworkFixed.load_credentials w_fresh).1 = true)
      by (vm_compute; reflexivity).
    rewrite Hload in Hret. discriminate Hret.
Defined.

(** ** Replay windows at context creation *)

(** A freshly initialized window accepts any first sequence number, anchors
    on it, and from then on rejects that number. *)
Lemma fresh_window_first_message (w : ReplayWindow.t) (seq : Z) :
  ∃ w1,
    ReplayWindow.check_and_record seq (ReplayWindow.initialize_empty w) =
      (true, w1) ∧
    ReplayWindow.highest w1 = seq ∧
    ReplayWindow.tracked w1 = Some seq ∧
    ReplayWindow.check_and_record seq w1 = (false, w1).
Proof.
  eexists. split; [reflexivity|]. split; [reflexivity|]. split; [reflexivity|].
  unfold ReplayWindow.check_and_record. cbn.
  rewrite (bool_decide_eq_true_2 (seq ∈ ({[seq]} : gset Z))) by set_solver.
  by rewrite orb_true_r.
Qed.

Lemma initialize_peer_window_lookup (c : Context) (x p : bytes) :
  recipient_replay_windows (initialize_peer_window c x) !! p =
  if decide (x = p)
  then ReplayWindow.initialize_empty <$> recipient_replay_windows c !! p
  else recipient_replay_windows c !! p.
Proof.
  unfold initialize_peer_window.
  destruct (recipient_replay_windows c !! x) as [w0|] eqn:Hx; cbn.
  - rewrite lookup_insert. destruct (decide (x = p)) as [->|]; [|done].
    by rewrite Hx.
  - destruct (decide (x = p)) as [->|]; [|done]. by rewrite Hx.
Qed.

Lemma initialize_peer_window_peers (c : Context) (x : bytes) :
  peers (initialize_peer_window c x) = peers c.
Proof.
  unfold initialize_peer_window.
  by destruct (recipient_replay_windows c !! x).
Qed.

(** The loop of the subclass constructors, peer by peer. *)
Lemma initialize_windows_fold (l : list bytes) (c : Context) (p : bytes) :
  peers (foldl initialize_peer_window c l) = peers c ∧
  recipient_replay_windows (foldl initialize_peer_window c l) !! p =
  if decide (p ∈ l)
  then ReplayWindow.initialize_empty <$> recipient_replay_windows c !! p
  else recipient_replay_windows c !! p.
Proof.
  revert c. induction l as [|x l IH]; intros c; cbn [foldl].
  - split; [done|]. destruct (decide (p ∈ [])) as [Hin|]; [|done].
    by apply elem_of_nil in Hin.
  - destruct (IH (initialize_peer_window c x)) as [Hp Hw].
    split; [by rewrite Hp, initialize_peer_window_peers|].
    rewrite Hw, initialize_peer_window_lookup.
    destruct (decide (p ∈ x :: l)) as [Hin|Hout];
      destruct (decide (p ∈ l)) as [Hl|Hl];
      destruct (decide (x = p)) as [->|Hne]; try done.
    + destruct (recipient_replay_windows c !! p); reflexivity.
    + apply elem_of_cons in Hin as [->|]; done.
    + exfalso. apply Hout. by apply list_elem_of_further.
    + exfalso. apply Hout. by apply list_elem_of_further.
    + exfalso. apply Hout. apply list_elem_of_here.
Qed.

Lemma initialize_replay_windows_spec (c : Context) (p : bytes) :
  peers (initialize_replay_windows c) = peers c ∧
  recipient_replay_windows (initialize_replay_windows c) !! p =
  if decide (is_Some (peers c !! p))
  then ReplayWindow.initialize_empty <$> recipient_replay_windows c !! p
  else recipient_replay_windows c !! p.
Proof.
  unfold initialize_replay_windows.
  destruct (initialize_windows_fold (map_to_list (peers c)).*1 c p) as [Hp Hw].
  split; [exact Hp|]. rewrite Hw.
  destruct (decide (p ∈ (map_to_list (peers c)).*1)) as [Hin|Hout];
    destruct (decide (is_Some (peers c !! p))) as [Hs|Hs]; try done.
  - exfalso. apply Hs. apply list_elem_of_fmap in Hin as ([k v] & -> & Hkv).
    apply elem_of_map_to_list in Hkv. cbn. eauto.
  - exfalso. apply Hout. destruct Hs as [v Hv].
    apply list_elem_of_fmap. exists (p, v). split; [done|].
    by apply elem_of_map_to_list.
Qed.

Lemma subclass_init_windows `{Platform} `{Aiocoap}
    (k : context_class) (a : ContextArgs) (base : Context) (w : world) :
  SimpleGroupContext_init a = Returned base →
  windows_initialized (subclass_init k a w) base.
Proof.
  intros Hinit. eexists _, _.
  split; [apply subclass_init_returned, Hinit|].
  split; [rewrite (proj1 (initialize_replay_windows_spec _ [])); reflexivity|].
  intros peer cred w0 Hpeer Hwin. split.
  - destruct (initialize_replay_windows_spec
                (set_echo_recovery (token_bytes 8 (rng w)).1 (set_cls k base))
                peer) as [_ Hw].
    rewrite Hw. cbn [set_echo_recovery set_cls peers recipient_replay_windows].
    rewrite decide_True by eauto. by rewrite Hwin.
  - intros seq. apply fresh_window_first_message.
Qed.

(** C4: when [FixedGroupContext] or [BenchmarkGroupContext] is created,
    the replay window of every configured peer is explicitly initialized
    empty: whatever state the base constructor left it in, the window the
    new context holds for the peer is [initialize_empty] of it, so the very
    first sequence number received from the peer is accepted and becomes
    the window's highest, and the same number is rejected afterwards: the
    window starts neither rejecting nor accepting everything. *)
Theorem C4_windows_initialized_at_creation `{Platform} `{Aiocoap}
    (a : ContextArgs) (base : Context) (w : world) :
  SimpleGroupContext_init a = Returned base →
  windows_initialized (FixedGroupContext_init a w) base ∧
  windows_initialized (BenchmarkGroupContext_init a w) base.
Proof.
  intros Hinit. split; apply subclass_init_windows; exact Hinit.
Qed.

(** ** The base constructor *)

Lemma group_context_init_returned `{Crypto} (a : ContextArgs) (base : Context) :
  Core.group_context_init a = Returned base →
  args base = a ∧
  peers base = arg_peers a ∧
  sender_sequence_number base = 0%Z ∧
  Core.derive (params_of a) (sender_id a) Core.group_recipient =
    Some (sender_material base) ∧
  (∀ p, recipient_replay_windows base !! p =
        (fun _ => ReplayWindow.initialize_empty
                    (ReplayWindow.create Core.REPLAY_WINDOW_SIZE)) <$>
          arg_peers a !! p) ∧
  (∀ p, recipient_material base !! p =
        arg_peers a !! p ≫= fun _ => Core.derive (params_of a) p Core.group_recipient).
Proof.
  unfold Core.group_context_init.
  destruct (Core.derive (params_of a) (sender_id a) Core.group_recipient)
    as [own|] eqn:Hown; [|discriminate].
  intros [= <-]. cbn. repeat split; try reflexivity.
  - intros p. apply lookup_fmap.
  - intros p. apply map_lookup_imap.
Qed.

(** C4 for the server built from the toy configuration and its peer, the
    client. *)
Lemma C4_windows_initialized_witness :
  ∃ c w' w0,
    @FixedGroupContext_init toy_platform Core.aiocoap
      (Testing.server_args Toy.config) w_fresh = (Returned c, w') ∧
    recipient_replay_windows c !! cfg_client_id Toy.config =
      Some (ReplayWindow.initialize_empty w0) ∧
    ∀ seq, (ReplayWindow.check_and_record seq
              (ReplayWindow.initialize_empty w0)).1 = true.
Proof.
  destruct (Core.group_context_init (Testing.server_args Toy.config))
    as [base|e] eqn:Hinit.
  - destruct (@C4_windows_initialized_at_creation toy_platform Core.aiocoap
                (Testing.server_args Toy.config) base w_fresh Hinit)
      as [(c & w' & Hrun & _ & Hall) _].
    destruct (group_context_init_returned _ _ Hinit)
      as (_ & Hpeers & _ & _ & Hwin & _).
    destruct (Hall (cfg_client_id Toy.config) (cfg_client_cred Toy.config)
                (ReplayWindow.initialize_empty
                   (ReplayWindow.create Core.REPLAY_WINDOW_SIZE)))
      as [Hc Hfirst].
    + rewrite Hpeers. apply lookup_singleton_eq.
    + rewrite Hwin. cbn [Testing.server_args Testing.config_args arg_peers].
      by rewrite lookup_singleton_eq.
    + exists c, w', (ReplayWindow.initialize_empty
                       (ReplayWindow.create Core.REPLAY_WINDOW_SIZE)).
      split; [exact Hrun|]. split; [exact Hc|].
      intros seq. destruct (Hfirst seq) as (w1 & -> & _). reflexivity.
  - exfalso.
    assert (Hret : is_returned
                     (Core.group_context_init (Testing.server_args Toy.config))
                   = true) by (vm_compute; reflexivity).
    rewrite Hinit in Hret. discriminate Hret.
Defined.

(** ** Sequence numbers and nonces *)

Lemma seqs_of_protect_calls `{Crypto} (ms : list Message) (c : Context) :
  Forall (fun s => sender_sequence_number c ≤ s < Core.MAX_SEQ)%Z
    (seqs_of (Core.protect_calls c ms)) ∧
  StronglySorted Z.lt (seqs_of (Core.protect_calls c ms)) ∧
  nonces_of (Core.protect_calls c ms) =
    build_nonce (common_iv (sender_material c)) (sender_id (args c)) <$>
      seqs_of (Core.protect_calls c ms).
Proof.
  revert c. induction ms as [|m ms IH]; intros c; cbn [Core.protect_calls].
  - cbn. repeat split; constructor.
  - unfold Core.protect_steps.
    destruct (bool_decide (Core.MAX_SEQ ≤ sender_sequence_number c)%Z) eqn:Hex.
    + cbn [seqs_of nonces_of]. apply IH.
    + apply bool_decide_eq_false in Hex.
      cbn [seqs_of nonces_of Core.used_seq Core.used_nonce Core.after].
      destruct (IH (set_sequence_number (sender_sequence_number c + 1) c))
        as (Hrange & Hsorted & Hnonces).
      cbn [set_sequence_number sender_sequence_number sender_material args]
        in Hrange, Hnonces.
      split; [|split].
      * constructor; [lia|]. eapply Forall_impl; [exact Hrange|].
        cbn. intros s Hs. lia.
      * constructor; [exact Hsorted|]. eapply Forall_impl; [exact Hrange|].
        cbn. intros s Hs. lia.
      * rewrite Hnonces. reflexivity.
Qed.

Lemma all_calls_return `{Crypto} (ms : list Message) (c : Context) :
  (sender_sequence_number c + Z.of_nat (length ms) ≤ Core.MAX_SEQ)%Z →
  length (seqs_of (Core.protect_calls c ms)) = length ms.
Proof.
  revert c. induction ms as [|m ms IH]; intros c Hroom; [reflexivity|].
  cbn [Core.protect_calls]. unfold Core.protect_steps.
  cbn [length] in Hroom.
  rewrite bool_decide_eq_false_2 by lia.
  cbn [seqs_of Core.after length]. f_equal. apply IH.
  cbn [set_sequence_number sender_sequence_number]. lia.
Qed.

Lemma exhausted_calls_fail `{Crypto} (ms : list Message) (c : Context) :
  (Core.MAX_SEQ ≤ sender_sequence_number c)%Z →
  Forall (fun r => r = inl SequenceExhausted) (Core.protect_calls c ms).
Proof.
  intros Hex. induction ms as [|m ms IH]; [constructor|].
  cbn [Core.protect_calls]. unfold Core.protect_steps.
  rewrite bool_decide_eq_true_2 by exact Hex. constructor; [reflexivity|exact IH].
Qed.

Lemma sorted_nonces_NoDup (f : Z → bytes) (lo : Z) (l : list Z) :
  (0 ≤ lo)%Z →
  (∀ s1 s2, (0 ≤ s1 ≤ Core.MAX_SEQ)%Z → (0 ≤ s2 ≤ Core.MAX_SEQ)%Z →
            f s1 = f s2 → s1 = s2) →
  Forall (fun s => lo ≤ s < Core.MAX_SEQ)%Z l →
  StronglySorted Z.lt l →
  NoDup (f <$> l).
Proof.
  intros Hlo Hinj Hrange Hsorted.
  induction Hsorted as [|x l Hsorted IH Hlt]; [constructor|].
  apply Forall_cons in Hrange as [Hx Hrange]. cbn. constructor.
  - intros Hin. apply list_elem_of_fmap in Hin as (y & Hfy & Hy).
    assert (x = y).
    { apply Hinj; [lia| |exact Hfy].
      rewrite Forall_forall in Hrange. specialize (Hrange y Hy). lia. }
    subst y. rewrite Forall_forall in Hlt. specialize (Hlt x Hy). lia.
  - apply IH, Hrange.
Qed.

(** C1, as the claim states it, fails: a context whose counter has reached
    its last value yields no sequence number at all; [protect] fails with
    [SequenceExhausted]. *)
Lemma C1_exhausted_context_yields_nothing :
  sender_sequence_number exhausted_client = Core.MAX_SEQ ∧
  Core.protect exhausted_client Toy.hello None = inl SequenceExhausted ∧
  seqs_of (Core.protect_calls exhausted_client [Toy.hello]) = [] ∧
  ¬ yields_fresh_numbers exhausted_client [Toy.hello].
Proof.
  assert (Hnone : seqs_of (Core.protect_calls exhausted_client [Toy.hello]) = [])
    by (vm_compute; reflexivity).
  split; [vm_compute; reflexivity|]. split; [vm_compute; reflexivity|].
  split; [exact Hnone|].
  intros (Hlen & _). rewrite Hnone in Hlen. discriminate Hlen.
Qed.

(** C1, amended: the [protect] calls that return yield strictly increasing
    sequence numbers, and, the nonce construction being injective in the
    sequence number, pairwise different nonces; as long as the counter has
    room for them, [n] consecutive calls all return, so they yield [n] such
    numbers; once the counter is exhausted every call fails with
    [SequenceExhausted] and yields none. *)
Theorem C1_protect_calls_fresh `{Crypto} (c : Context) (ms : list Message) :
  nonce_injective →
  (0 ≤ sender_sequence_number c)%Z →
  StronglySorted Z.lt (seqs_of (Core.protect_calls c ms)) ∧
  NoDup (nonces_of (Core.protect_calls c ms)) ∧
  ((sender_sequence_number c + Z.of_nat (length ms) ≤ Core.MAX_SEQ)%Z →
   yields_fresh_numbers c ms) ∧
  ((Core.MAX_SEQ ≤ sender_sequence_number c)%Z →
   Forall (fun r => r = inl SequenceExhausted) (Core.protect_calls c ms)).
Proof.
  intros Hinj Hpos.
  destruct (seqs_of_protect_calls ms c) as (Hrange & Hsorted & Hnonces).
  assert (Hnodup : NoDup (nonces_of (Core.protect_calls c ms))).
  { rewrite Hnonces.
    apply (sorted_nonces_NoDup _ (sender_sequence_number c));
      [exact Hpos | apply Hinj | exact Hrange | exact Hsorted]. }
  split; [exact Hsorted|]. split; [exact Hnodup|]. split.
  - intros Hroom. split; [by apply all_calls_return|]. by split.
  - apply exhausted_calls_fail.
Qed.

(** ** Replay rejection *)

Lemma check_and_record_replay (seq : Z) (w w' : ReplayWindow.t) :
  ReplayWindow.check_and_record seq w = (true, w') →
  ReplayWindow.check_and_record seq w' = (false, w') ∧
  ReplayWindow.tracked w' =
    Some (Z.max (default seq (ReplayWindow.tracked w)) seq).
Proof.
  unfold ReplayWindow.check_and_record, ReplayWindow.tracked.
  destruct (ReplayWindow.initialized w) eqn:Hinit; cbn [negb andb];
    [|intros [=]].
  destruct (ReplayWindow.anchored w) eqn:Hanch; cbn [negb].
  - destruct (bool_decide (seq ≤ ReplayWindow.highest w - ReplayWindow.window_size w)%Z
              || bool_decide (seq ∈ ReplayWindow.accepted w)) eqn:Hrej;
      [intros [=]|].
    apply orb_false_elim in Hrej as [Hold _].
    apply bool_decide_eq_false in Hold.
    intros [= <-]. cbn. split; [|reflexivity].
    destruct (decide (0 < ReplayWindow.window_size w)%Z) as [Hsize|Hsize].
    + rewrite (bool_decide_eq_true_2 (seq ∈ filter _ _)); [by rewrite orb_true_r|].
      apply elem_of_filter. split; [lia|set_solver].
    + rewrite (bool_decide_eq_true_2 (seq ≤ _)%Z) by lia. reflexivity.
  - intros [= <-]. cbn. split.
    + rewrite (bool_decide_eq_true_2 (seq ∈ ({[seq]} : gset Z))) by set_solver.
      by rewrite orb_true_r.
    + by rewrite Z.max_id.
Qed.

(** C3: when [unprotect] has accepted a protected message, the same call
    on the resulting receiver context with the identical message fails with
    [ReplayDetected], provided reconstructing the sequence number is not
    disturbed by having recorded it. *)
Theorem C3_replay_is_rejected `{Crypto} (c c' : Context) (pm : ProtectedMessage)
    (correlation : option Correlation) (m : Message) (h : option Correlation) :
  reconstruct_stable →
  Core.unprotect c pm correlation = inr (m, h, c') →
  Core.unprotect c' pm correlation = inl ReplayDetected.
Proof.
  intros Hstable. unfold Core.unprotect.
  destruct (peers c !! pm_kid pm) as [cred|] eqn:Hpeer; [|intros [=]].
  destruct (recipient_material c !! pm_kid pm) as [material|] eqn:Hmat;
    [|intros [=]].
  destruct (recipient_replay_windows c !! pm_kid pm) as [window|] eqn:Hwin;
    [|intros [=]].
  destruct (ReplayWindow.check_and_record
              (reconstruct (ReplayWindow.tracked window) (pm_piv pm)) window)
    as [[|] window'] eqn:Hcheck; [|intros [=]].
  destruct (aead_decrypt _ _ _ _ _) as [plaintext|]; [|intros [=]].
  destruct (verify _ _ _ _); cbn [negb]; [|intros [=]].
  destruct (decode_message plaintext) as [m0|]; [|intros [=]].
  intros [= _ _ <-].
  cbn [set_windows peers recipient_material recipient_replay_windows args].
  rewrite Hpeer, Hmat, lookup_insert_eq.
  destruct (check_and_record_replay _ _ _ Hcheck) as [Hagain Htracked].
  rewrite Htracked, Hstable, Hagain. reflexivity.
Qed.

(** C3 on the request the toy client protects and the toy server
    unprotects. *)
Lemma C3_replay_witness :
  ∃ m h c',
    Core.unprotect Toy.server toy_request None = inr (m, h, c') ∧
    Core.unprotect c' toy_request None = inl ReplayDetected.
Proof.
  destruct (Core.unprotect Toy.server toy_request None)
    as [e|[[m h] c']] eqn:Hfirst.
  - exfalso.
    assert (Hok : succeeded (Core.unprotect Toy.server toy_request None) = true)
      by (vm_compute; reflexivity).
    rewrite Hfirst in Hok. discriminate Hok.
  - exists m, h, c'. split; [reflexivity|].
    apply (C3_replay_is_rejected Toy.server c' toy_request None m h);
      [|exact Hfirst].
    intros hw piv. reflexivity.
Defined.

(** ** Round trip *)

Lemma params_fields (a b : ContextArgs) :
  params_of a = params_of b →
  arg_group_id a = arg_group_id b ∧ alg_aead a = alg_aead b ∧
  alg_signature a = alg_signature b ∧ hashfun a = hashfun b.
Proof.
  intros Hp.
  repeat split;
    [ exact (f_equal gp_group_id Hp) | exact (f_equal gp_alg_aead Hp)
    | exact (f_equal gp_alg_signature Hp) | exact (f_equal gp_hash Hp) ].
Qed.

(** One direction: what a sender protects, a matching receiver
    unprotects. *)
Lemma round_trip_one `{Crypto} (s r : Context) (m : Message)
    (correlation : option Correlation) :
  aead_correct → codec_correct m → matching s r →
  ∃ pm h ws,
    Core.protect s m correlation =
      inr (pm, h, set_sequence_number (sender_sequence_number s + 1) s) ∧
    Core.unprotect r pm correlation =
      inr (m, match correlation with None => Some h | Some _ => None end,
           set_windows ws r) ∧
    (correlation = None →
     h = FromRequest (sender_id (args s))
           (Core.piv_of (sender_sequence_number s))).
Proof.
  intros Haead Hcodec
    (Hpar & Hkp & Hpeer & Hmat & Hseq & window & Hwin & Hrec & Hacc).
  destruct (params_fields _ _ Hpar) as (Hgid & Halg & Hsig & Hhash).
  unfold Core.protect, Core.protect_steps.
  rewrite bool_decide_eq_false_2 by lia.
  cbn [Core.wire Core.handle Core.after].
  destruct (ReplayWindow.check_and_record (sender_sequence_number s) window)
    as [b window'] eqn:Hcheck.
  cbn [fst] in Hacc. subst b.
  eexists _, _, (<[sender_id (args s) := window']> (recipient_replay_windows r)).
  split; [reflexivity|]. split.
  - unfold Core.unprotect. cbn [pm_kid pm_piv pm_body].
    rewrite Hpeer, Hmat, Hwin, Hrec, Hcheck.
    assert (Haad : Core.make_aad r (sender_id (args s)) correlation =
                   Core.make_aad s (sender_id (args s)) correlation).
    { unfold Core.make_aad. by rewrite Hgid, Halg, Hsig, Hhash. }
    rewrite Haad, <- Halg, <- Hsig.
    set (aad := Core.make_aad s (sender_id (args s)) correlation).
    set (ct := aead_encrypt _ _ _ aad (encode_message m)).
    destruct (Hkp (alg_signature (args s)) (aad, ct)) as [Hlen Hver].
    set (sg := sign _ _ (aad, ct)) in *.
    assert (Hsplit : (length (ct ++ sg) - signature_length (alg_signature (args s))
                      = length ct)%nat)
      by (rewrite length_app, Hlen; lia).
    rewrite Hsplit, take_app_length, drop_app_length.
    subst ct. rewrite Haead, Hver. cbn [negb]. rewrite Hcodec.
    destruct correlation; reflexivity.
  - intros ->. reflexivity.
Qed.

(** The two contexts [create_group_contexts_from_config] builds from one
    configuration match in both directions, as soon as each member's
    credential belongs to its private key and the first partial sequence
    number reconstructs to 0 on a fresh window. *)
Lemma test_contexts_match `{Crypto} (config : SharedConfig)
    (client server : Context) :
  Testing.create_group_contexts_from_config config = (Some client, Some server) →
  key_pair (cfg_client_private_key config) (cfg_client_cred config) →
  key_pair (cfg_server_private_key config) (cfg_server_cred config) →
  reconstruct None (Core.piv_of 0) = 0%Z →
  matching client server ∧ matching server client.
Proof.
  intros Hpair Hkc Hks Hrec.
  unfold Testing.create_group_contexts_from_config in Hpair.
  cbn [SimpleGroupContext_init Core.aiocoap] in Hpair.
  destruct (Core.group_context_init (Testing.client_args config))
    as [cb|] eqn:Hcb; [|discriminate].
  destruct (Core.group_context_init (Testing.server_args config))
    as [sb|] eqn:Hsb; [|discriminate].
  injection Hpair as <- <-.
  destruct (group_context_init_returned _ _ Hcb)
    as (Hca & Hcp & Hcs & Hcd & Hcw & Hcm).
  destruct (group_context_init_returned _ _ Hsb)
    as (Hsa & Hsp & Hss & Hsd & Hsw & Hsm).
  split; unfold matching; cbn zeta;
    cbn [set_cls args peers sender_sequence_number sender_material
           recipient_material recipient_replay_windows];
    rewrite Hca, Hsa, ?Hcs, ?Hss, ?Hsp, ?Hcp, ?Hsm, ?Hcm, ?Hsw, ?Hcw;
    cbn [Testing.client_args Testing.server_args Testing.config_args sender_id
           private_key sender_auth_cred arg_peers];
    rewrite lookup_singleton_eq;
    cbn [mbind option_bind fmap option_fmap option_map].
  - split; [reflexivity|]. split; [exact Hkc|]. split; [reflexivity|].
    split; [exact Hcd|]. split; [reflexivity|].
    eexists. split; [reflexivity|]. split; [exact Hrec | reflexivity].
  - split; [reflexivity|]. split; [exact Hks|]. split; [reflexivity|].
    split; [exact Hsd|]. split; [reflexivity|].
    eexists. split; [reflexivity|]. split; [exact Hrec | reflexivity].
Qed.

(** C2: over a correct cipher, signature scheme and message codec, every
    request and response make the round trip, request direction and
    response direction, between every pair of contexts that match in both
    directions; payloads, codes and options are equal.  The client and the
    server that [create_group_contexts_from_config] builds from one
    configuration are such a pair, the contexts
    [simulate_complete_communication] runs the exchange on: they make the
    round trip as they are created, as soon as each credential belongs to
    its private key. *)
Theorem C2_round_trip `{Crypto} (request response : Message) :
  aead_correct → codec_correct request → codec_correct response →
  (∀ client server,
     matching client server → matching server client →
     round_trips client server request response) ∧
  (∀ config client server,
     Testing.create_group_contexts_from_config config =
       (Some client, Some server) →
     key_pair (cfg_client_private_key config) (cfg_client_cred config) →
     key_pair (cfg_server_private_key config) (cfg_server_cred config) →
     reconstruct None (Core.piv_of 0) = 0%Z →
     round_trips client server request response).
Proof.
  intros Haead Hreq Hresp.
  assert (Hgeneral : ∀ client server,
            matching client server → matching server client →
            round_trips client server request response).
  { intros client server Hcs Hsc.
    destruct (round_trip_one client server request None Haead Hreq Hcs)
      as (pm1 & h1 & ws & Hp1 & Hu1 & _).
    assert (Hsc' : matching (set_windows ws server)
                     (set_sequence_number (sender_sequence_number client + 1)
                        client)) by exact Hsc.
    destruct (round_trip_one _ _ response (Some h1) Haead Hresp Hsc')
      as (pm2 & h2 & ws2 & Hp2 & Hu2 & _).
    eexists pm1, h1, _, _, pm2, h2, _, _.
    split; [exact Hp1|]. split; [exact Hu1|]. split; [exact Hp2|exact Hu2]. }
  split; [exact Hgeneral|].
  intros config client server Hpair Hkc Hks Hrec.
  destruct (test_contexts_match config client server Hpair Hkc Hks Hrec)
    as [Hcs Hsc].
  exact (Hgeneral client server Hcs Hsc).
Qed.

(** ** The stand-in primitives satisfy the laws assumed of them *)

Lemma byte_of_Z_value (v : Z) :
  Z.of_N (Byte.to_N (Core.byte_of_Z v)) = (v mod 256)%Z.
Proof.
  unfold Core.byte_of_Z.
  assert (Hrange : (0 ≤ v mod 256 < 256)%Z) by (apply Z.mod_pos_bound; lia).
  destruct (Byte.of_N (Z.to_N (v mod 256))) as [b|] eqn:Hb; cbn [default].
  - apply Byte.to_of_N in Hb. unfold id. rewrite Hb. lia.
  - apply Byte.of_N_None_iff in Hb. lia.
Qed.

Lemma be_value_snoc (l : bytes) (x : Byte.byte) (acc : Z) :
  Toy.be_value (l ++ [x]) acc =
  (256 * Toy.be_value l acc + Z.of_N (Byte.to_N x))%Z.
Proof.
  revert acc. induction l as [|y l IH]; intros acc; cbn; [reflexivity|].
  apply IH.
Qed.

Lemma be_value_be_bytes (n : nat) (v : Z) :
  (0 ≤ v < 256 ^ Z.of_nat n)%Z →
  Toy.be_value (Core.be_bytes n v) 0 = v.
Proof.
  revert v. induction n as [|n IH]; intros v Hv.
  - cbn in *. lia.
  - cbn [Core.be_bytes]. rewrite be_value_snoc, byte_of_Z_value.
    rewrite IH; [symmetry; apply Z.div_mod; lia|].
    rewrite Nat2Z.inj_succ, Z.pow_succ_r in Hv by lia.
    split; [apply Z.div_pos; lia|].
    apply Z.div_lt_upper_bound; lia.
Qed.

Lemma toy_nonce_injective : @nonce_injective Toy.crypto.
Proof.
  intros iv sid s1 s2 H1 H2 Heq.
  change (iv ++ sid ++ Core.be_bytes 8 s1 = iv ++ sid ++ Core.be_bytes 8 s2)
    in Heq.
  apply app_inv_head, app_inv_head in Heq.
  assert (Hbound : (Core.MAX_SEQ < 256 ^ Z.of_nat 8)%Z) by reflexivity.
  rewrite <- (be_value_be_bytes 8 s1), <- (be_value_be_bytes 8 s2) by lia.
  by rewrite Heq.
Qed.

Lemma toy_aead_correct : @aead_correct Toy.crypto.
Proof.
  intros alg key nonce aad pt. cbn.
  rewrite take_app_length, drop_app_length.
  by rewrite bool_decide_eq_true_2.
Qed.

Lemma toy_key_pair (sk cred : bytes) :
  Toy.signer sk = Toy.signer cred → @key_pair Toy.crypto sk cred.
Proof.
  intros Hsame alg msg. cbn. split; [reflexivity|].
  unfold Toy.signature_of. rewrite Hsame. by rewrite bool_decide_eq_true_2.
Qed.

Lemma toy_contexts_match :
  @matching Toy.crypto Toy.client Toy.server ∧
  @matching Toy.crypto Toy.server Toy.client.
Proof.
  split; unfold matching; cbn zeta.
  - split; [vm_compute; reflexivity|].
    split; [apply toy_key_pair; vm_compute; reflexivity|].
    split; [vm_compute; reflexivity|]. split; [vm_compute; reflexivity|].
    split; [vm_compute; reflexivity|].
    eexists. split; [vm_compute; reflexivity|].
    split; vm_compute; reflexivity.
  - split; [vm_compute; reflexivity|].
    split; [apply toy_key_pair; vm_compute; reflexivity|].
    split; [vm_compute; reflexivity|]. split; [vm_compute; reflexivity|].
    split; [vm_compute; reflexivity|].
    eexists. split; [vm_compute; reflexivity|].
    split; vm_compute; reflexivity.
Qed.

(** C2 on the contexts [create_group_contexts_from_config] builds from the
    toy configuration, and on the toy client and server built by the
    subclass constructor. *)
Lemma C2_round_trip_witness :
  (∃ client server,
     Testing.create_group_contexts_from_config Toy.config =
       (Some client, Some server) ∧
     round_trips client server Toy.hello Toy.hello) ∧
  round_trips Toy.client Toy.server Toy.hello Toy.hello.
Proof.
  destruct (C2_round_trip Toy.hello Toy.hello toy_aead_correct eq_refl eq_refl)
    as [Hmatching Hcreated].
  split.
  - destruct (Testing.create_group_contexts_from_config Toy.config)
      as [[client|] [server|]] eqn:Hpair;
      [ exists client, server; split; [reflexivity|];
        apply (Hcreated Toy.config client server Hpair);
        [ apply toy_key_pair; reflexivity
        | apply toy_key_pair; reflexivity
        | vm_compute; reflexivity ]
      | exfalso .. ];
      assert (Hboth :
        bool_decide (is_Some (Testing.create_group_contexts_from_config Toy.config).1)
        && bool_decide (is_Some (Testing.create_group_contexts_from_config Toy.config).2)
        = true) by (vm_compute; reflexivity);
      rewrite Hpair in Hboth; discriminate Hboth.
  - exact (Hmatching Toy.client Toy.server (proj1 toy_contexts_match)
             (proj2 toy_contexts_match)).
Defined.

(** C1, amended, on three consecutive calls of the toy client. *)
Lemma C1_protect_calls_witness :
  StronglySorted Z.lt
    (seqs_of (Core.protect_calls Toy.client [Toy.hello; Toy.hello; Toy.hello])) ∧
  NoDup (nonces_of
           (Core.protect_calls Toy.client [Toy.hello; Toy.hello; Toy.hello])) ∧
  length (seqs_of
            (Core.protect_calls Toy.client [Toy.hello; Toy.hello; Toy.hello])) = 3%nat.
Proof.
  assert (Hzero : sender_sequence_number Toy.client = 0%Z)
    by (vm_compute; reflexivity).
  destruct (C1_protect_calls_fresh Toy.client [Toy.hello; Toy.hello; Toy.hello]
              toy_nonce_injective) as (Hsorted & Hnodup & Hroom & _).
  - rewrite Hzero. lia.
  - split; [exact Hsorted|]. split; [exact Hnodup|].
    apply Hroom. rewrite Hzero. unfold Core.MAX_SEQ. cbn. lia.
Defined.

(** ** Freshly created contexts match *)

Lemma initialize_peer_window_fields (c : Context) (x : bytes) :
  args (initialize_peer_window c x) = args c ∧
  sender_sequence_number (initialize_peer_window c x) = sender_sequence_number c ∧
  sender_material (initialize_peer_window c x) = sender_material c ∧
  recipient_material (initialize_peer_window c x) = recipient_material c.
Proof.
  unfold initialize_peer_window.
  by destruct (recipient_replay_windows c !! x).
Qed.

Lemma initialize_replay_windows_fields (c : Context) :
  args (initialize_replay_windows c) = args c ∧
  sender_sequence_number (initialize_replay_windows c) = sender_sequence_number c ∧
  sender_material (initialize_replay_windows c) = sender_material c ∧
  recipient_material (initialize_replay_windows c) = recipient_material c.
Proof.
  unfold initialize_replay_windows.
  generalize ((map_to_list (peers c)).*1). intros l. revert c.
  induction l as [|x l IH]; intros c; cbn [foldl]; [done|].
  destruct (IH (initialize_peer_window c x)) as (-> & -> & -> & ->).
  apply initialize_peer_window_fields.
Qed.

(** The client and the server that the subclass constructors build from one
    configuration match, the client as sender and the server as receiver,
    as soon as the client's credential belongs to its private key and the
    first partial sequence number reconstructs to 0 on a fresh window. *)
Lemma created_contexts_match `{Crypto} (config : SharedConfig)
    (k1 k2 : context_class) (cb sb : Context) (t1 t2 : bytes) :
  Core.group_context_init (Testing.client_args config) = Returned cb →
  Core.group_context_init (Testing.server_args config) = Returned sb →
  key_pair (cfg_client_private_key config) (cfg_client_cred config) →
  reconstruct None (Core.piv_of 0) = 0%Z →
  matching
    (initialize_replay_windows (set_echo_recovery t1 (set_cls k1 cb)))
    (initialize_replay_windows (set_echo_recovery t2 (set_cls k2 sb))).
Proof.
  intros Hcb Hsb Hkp Hrec.
  destruct (group_context_init_returned _ _ Hcb)
    as (Hca & Hcp & Hcs & Hcd & Hcw & Hcm).
  destruct (group_context_init_returned _ _ Hsb)
    as (Hsa & Hsp & Hss & Hsd & Hsw & Hsm).
  set (c1 := set_echo_recovery t1 (set_cls k1 cb)).
  set (s1 := set_echo_recovery t2 (set_cls k2 sb)).
  destruct (initialize_replay_windows_fields c1) as (Ha1 & Hn1 & Hm1 & _).
  destruct (initialize_replay_windows_fields s1) as (Ha2 & _ & _ & Hr2).
  destruct (initialize_replay_windows_spec s1 (sender_id (args c1)))
    as [Hp2 Hw2].
  unfold matching. cbn zeta. rewrite Ha1, Ha2, Hn1, Hm1, Hr2, Hp2, Hw2.
  subst c1 s1.
  cbn [set_echo_recovery set_cls args peers sender_sequence_number
         sender_material recipient_material recipient_replay_windows].
  rewrite Hca, Hsa, Hcs, Hsp, Hsm, Hsw.
  cbn [Testing.client_args Testing.server_args Testing.config_args sender_id
         private_key sender_auth_cred arg_peers].
  rewrite lookup_singleton_eq. cbn [mbind option_bind fmap option_fmap option_map].
  split; [reflexivity|]. split; [exact Hkp|]. split; [reflexivity|].
  split; [exact Hcd|]. split; [reflexivity|].
  rewrite decide_True by eauto.
  eexists. split; [reflexivity|]. split; [exact Hrec | reflexivity].
Qed.

(** ** More on the credential store *)

Lemma generate_and_save_raised `{Platform} (w w' : world) (e : exn) :
  NetworkFixed.generate_and_save_credentials w = (Raised e, w') →
  files w' = files w ∧ trace w' = trace w.
Proof.
  unfold NetworkFixed.generate_and_save_credentials. run.
  destruct (generate_with_ccs (rng w)) as [[gm|e1] g1]; cbn [files rng trace];
    [|by intros [= _ <-]].
  destruct (generate_with_ccs g1) as [[cl|e2] g2]; cbn [files rng trace];
    [|by intros [= _ <-]].
  destruct (generate_with_ccs g2) as [[sv|e3] g3]; cbn [files rng trace];
    [discriminate|by intros [= _ <-]].
Qed.

Lemma load_valid_file `{Platform} (w : world) (text : string) (j : json) :
  files w !! CREDENTIALS_FILE = Some text →
  json_load text = Some j →
  NetworkFixed.load_credentials w = (Returned j, w).
Proof.
  intros Hfile Hload. unfold NetworkFixed.load_credentials. run.
  rewrite bool_decide_eq_true_2 by eauto. cbn [negb]. cbv beta.
  rewrite Hfile, Hload. reflexivity.
Qed.

(** X1: the credential loaders of the two scripts are interchangeable: on
    every world [load_or_create_credentials] of the benchmark returns what
    [load_credentials] returns and leaves the same world behind. *)
Theorem X1_loaders_agree `{Platform} (w : world) :
  Benchmark.load_or_create_credentials w = NetworkFixed.load_credentials w.
Proof.
  destruct (files w !! CREDENTIALS_FILE) as [text|] eqn:Hfile.
  - destruct (json_load text) as [j|] eqn:Hload.
    + rewrite (load_valid_file w text j Hfile Hload).
      unfold Benchmark.load_or_create_credentials. run.
      rewrite bool_decide_eq_true_2 by eauto. cbv beta iota.
      rewrite Hfile, Hload. reflexivity.
    + rewrite load_or_create_regenerates, load_credentials_regenerates; eauto.
  - rewrite load_or_create_regenerates, load_credentials_regenerates; eauto.
Qed.

(** X2: credentials persist: once [generate_and_save_credentials] has
    returned, and the decoder reads back what was written, every later load
    by either script returns the very same credentials, generates no key
    and writes nothing. *)
Theorem X2_credentials_persist `{Platform} (w w1 : world) (creds : json) :
  NetworkFixed.generate_and_save_credentials w = (Returned creds, w1) →
  decodes_own_output creds →
  NetworkFixed.load_credentials w1 = (Returned creds, w1) ∧
  Benchmark.load_or_create_credentials w1 = (Returned creds, w1).
Proof.
  intros Hgen Hdec.
  destruct (generate_and_save_returned _ _ _ Hgen) as (_ & _ & _ & _ & Hf & _).
  assert (Hload : NetworkFixed.load_credentials w1 = (Returned creds, w1)).
  { apply (load_valid_file w1 (dumps 2 creds)); [|exact Hdec].
    rewrite Hf. apply lookup_insert_eq. }
  split; [exact Hload|]. rewrite load_or_create_is_load. exact Hload.
Qed.

(** X2 on the first run of the toy platform. *)
Lemma X2_credentials_persist_witness :
  ∃ w1,
    NetworkFixed.generate_and_save_credentials w_fresh =
      (Returned toy_credentials, w1) ∧
    NetworkFixed.load_credentials w1 = (Returned toy_credentials, w1).
Proof.
  destruct (NetworkFixed.generate_and_save_credentials w_fresh)
    as [[creds|e] w1] eqn:Hgen.
  - assert (Hcreds : (NetworkFixed.generate_and_save_credentials w_fresh).1 =
                     Returned toy_credentials) by (vm_compute; reflexivity).
    rewrite Hgen in Hcreds. injection Hcreds as ->.
    exists w1. split; [reflexivity|].
    apply (X2_credentials_persist w_fresh w1 toy_credentials Hgen).
    vm_compute. reflexivity.
  - exfalso.
    assert (Hret : is_returned
                     (NetworkFixed.generate_and_save_credentials w_fresh).1
                   = true) by (vm_compute; reflexivity).
    rewrite Hgen in Hret. discriminate Hret.
Defined.

(** X3: a load that raises has not touched the file system: the three key
    pairs are generated before the file is opened, so a failing key
    generation leaves the credential file, and every other file, as it
    was, whether the file was absent, valid or corrupt. *)
Theorem X3_failed_load_writes_nothing `{Platform} (w w' : world) (e : exn) :
  NetworkFixed.load_credentials w = (Raised e, w') →
  files w' = files w ∧ trace w' = trace w.
Proof.
  intros Hload.
  destruct (files w !! CREDENTIALS_FILE) as [text|] eqn:Hfile.
  - destruct (json_load text) as [j|] eqn:Hj.
    + rewrite (load_valid_file w text j Hfile Hj) in Hload. discriminate.
    + rewrite load_credentials_regenerates in Hload by eauto.
      by apply generate_and_save_raised in Hload.
  - rewrite load_credentials_regenerates in Hload by eauto.
    by apply generate_and_save_raised in Hload.
Qed.

(** X3 where key generation fails on a first run. *)
Lemma X3_failed_load_witness :
  ∃ e w',
    @NetworkFixed.load_credentials keyless_platform w_keyless = (Raised e, w') ∧
    files w' = files w_keyless ∧ trace w' = trace w_keyless.
Proof.
  destruct (@NetworkFixed.load_credentials keyless_platform w_keyless)
    as [[creds|e] w'] eqn:Hload.
  - exfalso.
    assert (Hret : is_returned
                     (@NetworkFixed.load_credentials keyless_platform w_keyless).1
                   = false) by (vm_compute; reflexivity).
    rewrite Hload in Hret. discriminate Hret.
  - exists e, w'. split; [reflexivity|].
    exact (@X3_failed_load_writes_nothing keyless_platform w_keyless w' e Hload).
Defined.

(** X4: [reset_credentials] removes the credential file and nothing else,
    consumes no randomness, changes nothing at all when the file is already
    absent, and makes the next load generate fresh credentials. *)
Theorem X4_reset_forces_regeneration `{Platform} (w : world) :
  ∃ w',
    NetworkFixed.reset_credentials w = (Returned tt, w') ∧
    files w' !! CREDENTIALS_FILE = None ∧
    (∀ p, p ≠ CREDENTIALS_FILE → files w' !! p = files w !! p) ∧
    rng w' = rng w ∧
    (files w !! CREDENTIALS_FILE = None → w' = w) ∧
    NetworkFixed.reset_credentials w' = (Returned tt, w') ∧
    NetworkFixed.load_credentials w' =
      NetworkFixed.generate_and_save_credentials w'.
Proof.
  unfold NetworkFixed.reset_credentials. run.
  destruct (files w !! CREDENTIALS_FILE) as [text|] eqn:Hfile.
  - rewrite bool_decide_eq_true_2 by eauto.
    eexists. split; [reflexivity|]. cbn [files rng trace apply_op].
    assert (Hgone : delete CREDENTIALS_FILE (files w) !! CREDENTIALS_FILE = None)
      by apply lookup_delete_eq.
    split; [exact Hgone|].
    split; [intros p Hp; by rewrite lookup_delete_ne|].
    split; [reflexivity|]. split; [discriminate|]. split.
    + rewrite Hgone. rewrite bool_decide_eq_false_2; [reflexivity|].
      by intros [? ?].
    + apply load_credentials_regenerates. left. exact Hgone.
  - rewrite bool_decide_eq_false_2 by (by intros [? ?]).
    exists w. split; [reflexivity|]. split; [exact Hfile|].
    split; [done|]. split; [reflexivity|]. split; [done|]. split.
    + rewrite Hfile. rewrite bool_decide_eq_false_2; [reflexivity|].
      by intros [? ?].
    + apply load_credentials_regenerates. left. exact Hfile.
Qed.

(** X5: [show_credentials_info] never raises.  It leaves the world as it is
    when the credential file is absent or decodes; on a file that does not
    decode it regenerates the credentials as a load does, so asking for
    information overwrites a corrupt file. *)
Theorem X5_info_never_raises `{Platform} (w : world) :
  ∃ w',
    show_credentials_info w = (Returned tt, w') ∧
    (files w !! CREDENTIALS_FILE = None → w' = w) ∧
    (∀ text j, files w !! CREDENTIALS_FILE = Some text →
               json_load text = Some j → w' = w) ∧
    (∀ text, files w !! CREDENTIALS_FILE = Some text →
             json_load text = None →
             w' = (NetworkFixed.generate_and_save_credentials w).2).
Proof.
  unfold show_credentials_info.
  destruct (files w !! CREDENTIALS_FILE) as [text|] eqn:Hfile.
  - assert (Hrun : show_credentials_info w =
                   match NetworkFixed.load_credentials w with
                   | (_, w') => (Returned tt, w')
                   end).
    { unfold show_credentials_info. run.
      rewrite bool_decide_eq_true_2 by eauto. cbn [negb].
      destruct (NetworkFixed.load_credentials w) as [[j|e] w']; reflexivity. }
    unfold show_credentials_info in Hrun. rewrite Hrun.
    destruct (json_load text) as [j|] eqn:Hj.
    + rewrite (load_valid_file w text j Hfile Hj). exists w.
      split; [reflexivity|]. split; [discriminate|]. split; [done|].
      intros text' [= <-] Hnone. congruence.
    + rewrite load_credentials_regenerates by eauto.
      destruct (NetworkFixed.generate_and_save_credentials w) as [o w'].
      exists w'. split; [reflexivity|]. split; [discriminate|].
      split; [|done]. intros text' j [= <-] Hsome. congruence.
  - run. rewrite bool_decide_eq_false_2 by (rewrite Hfile; by intros [? ?]).
    exists w. split; [reflexivity|]. split; [done|].
    split; intros; discriminate.
Qed.

(** ** Decoding the credentials *)

Lemma hex_field_is_value `{Platform} (creds : json) (who field : string)
    (w : world) :
  hex_field creds who field w = (hex_field_value creds who field, w).
Proof.
  unfold hex_field, hex_field_value. run.
  destruct (getitem creds who) as [entry|e]; [|reflexivity].
  destruct (getitem entry field) as [v|e]; [|reflexivity].
  destruct v; try reflexivity.
  by destruct (Hex.fromhex s).
Qed.

Lemma bind_hex_field `{Platform} {B} (creds : json) (who field : string)
    (k : bytes → M B) (w : world) :
  (hex_field creds who field ≫= k) w =
  match hex_field_value creds who field with
  | Returned b => k b w
  | Raised e => (Raised e, w)
  end.
Proof.
  unfold mbind, M_bind, bind. rewrite hex_field_is_value.
  by destruct (hex_field_value creds who field).
Qed.

(** [member_args] as a value: the lookups in the order of the source. *)
Lemma member_args_value `{Platform} (creds : json) (is_client : bool)
    (w : world) :
  member_args creds is_client w =
  (match hex_field_value creds "group_manager" "private_key" with
   | Raised e => Raised e
   | Returned _ =>
   match hex_field_value creds "group_manager" "credential" with
   | Raised e => Raised e
   | Returned gm_cred =>
   let me := if is_client then "client" else "server" in
   let other := if is_client then "server" else "client" in
   match hex_field_value creds me "private_key" with
   | Raised e => Raised e
   | Returned key =>
   match hex_field_value creds me "credential" with
   | Raised e => Raised e
   | Returned cred =>
   match hex_field_value creds other "credential" with
   | Raised e => Raised e
   | Returned peer =>
       Returned
         (if is_client
          then make_args (client_id GROUP_CONFIG) key cred
                 {[ server_id GROUP_CONFIG := peer ]} gm_cred
          else make_args (server_id GROUP_CONFIG) key cred
                 {[ client_id GROUP_CONFIG := peer ]} gm_cred)
   end end end end end, w).
Proof.
  unfold member_args.
  rewrite bind_hex_field.
  destruct (hex_field_value creds "group_manager" "private_key"); [|reflexivity].
  rewrite bind_hex_field.
  destruct (hex_field_value creds "group_manager" "credential"); [|reflexivity].
  destruct is_client; cbn zeta iota;
    rewrite bind_hex_field;
    (destruct (hex_field_value creds _ "private_key"); [|reflexivity]);
    rewrite bind_hex_field;
    (destruct (hex_field_value creds _ "credential"); [|reflexivity]);
    rewrite bind_hex_field;
    (destruct (hex_field_value creds _ "credential"); reflexivity).
Qed.

Lemma hex_field_of_written (gm cl sv : bytes * bytes) :
  hex_field_value (credentials_dict gm cl sv) "group_manager" "private_key" =
    Returned gm.1 ∧
  hex_field_value (credentials_dict gm cl sv) "group_manager" "credential" =
    Returned gm.2 ∧
  hex_field_value (credentials_dict gm cl sv) "client" "private_key" =
    Returned cl.1 ∧
  hex_field_value (credentials_dict gm cl sv) "client" "credential" =
    Returned cl.2 ∧
  hex_field_value (credentials_dict gm cl sv) "server" "private_key" =
    Returned sv.1 ∧
  hex_field_value (credentials_dict gm cl sv) "server" "credential" =
    Returned sv.2.
Proof.
  repeat split; unfold hex_field_value; cbn; by rewrite fromhex_hex.
Qed.

Lemma written_credentials_decode `{Platform} (gm cl sv : bytes * bytes)
    (w : world) :
  member_args (credentials_dict gm cl sv) true w =
    (Returned (make_args (client_id GROUP_CONFIG) cl.1 cl.2
                 {[ server_id GROUP_CONFIG := sv.2 ]} gm.2), w) ∧
  member_args (credentials_dict gm cl sv) false w =
    (Returned (make_args (server_id GROUP_CONFIG) sv.1 sv.2
                 {[ client_id GROUP_CONFIG := cl.2 ]} gm.2), w).
Proof.
  destruct (hex_field_of_written gm cl sv) as (H1 & H2 & H3 & H4 & H5 & H6).
  split; rewrite member_args_value; cbn zeta iota;
    rewrite H1, H2, ?H3, ?H4, ?H5, ?H6; reflexivity.
Qed.

(** X6: what [generate_and_save_credentials] writes, the context factories
    read back exactly: on a first run, when the freshly generated
    credentials are decoded, the client is configured with its own private
    key and credential, whatever their bytes, and the server's credential as
    its only peer, and the server the other way round; both get the group
    manager's credential. *)
Theorem X6_written_credentials_decode `{Platform} (w w1 : world) (creds : json) :
  NetworkFixed.generate_and_save_credentials w = (Returned creds, w1) →
  ∃ gm cl sv : bytes * bytes,
    creds = credentials_dict gm cl sv ∧
    member_args creds true w1 =
      (Returned (make_args (client_id GROUP_CONFIG) cl.1 cl.2
                   {[ server_id GROUP_CONFIG := sv.2 ]} gm.2), w1) ∧
    member_args creds false w1 =
      (Returned (make_args (server_id GROUP_CONFIG) sv.1 sv.2
                   {[ client_id GROUP_CONFIG := cl.2 ]} gm.2), w1).
Proof.
  intros Hgen.
  destruct (generate_and_save_returned _ _ _ Hgen) as (gm & cl & sv & -> & _).
  exists gm, cl, sv. split; [reflexivity|]. apply written_credentials_decode.
Qed.

(** X6 on the first run of the toy platform. *)
Lemma X6_written_credentials_witness :
  ∃ w1 a,
    NetworkFixed.generate_and_save_credentials w_fresh =
      (Returned toy_credentials, w1) ∧
    member_args toy_credentials true w1 = (Returned a, w1) ∧
    sender_id a = client_id GROUP_CONFIG.
Proof.
  destruct (NetworkFixed.generate_and_save_credentials w_fresh)
    as [[creds|e] w1] eqn:Hgen.
  - assert (Hcreds : (NetworkFixed.generate_and_save_credentials w_fresh).1 =
                     Returned toy_credentials) by (vm_compute; reflexivity).
    rewrite Hgen in Hcreds. injection Hcreds as ->.
    destruct (X6_written_credentials_decode w_fresh w1 toy_credentials Hgen)
      as (gm & cl & sv & _ & Hc & _).
    exists w1. eexists. split; [reflexivity|]. split; [exact Hc|reflexivity].
  - exfalso.
    assert (Hret : is_returned
                     (NetworkFixed.generate_and_save_credentials w_fresh).1
                   = true) by (vm_compute; reflexivity).
    rewrite Hgen in Hret. discriminate Hret.
Defined.

(** X7: a client and a server configured from one credentials document,
    whatever it holds, fit each other: each has exactly one peer, the other
    member, under the credential the other member presents as its own;
    both use the same group parameters and group manager credential, and
    their sender identifiers differ. *)
Theorem X7_client_and_server_fit `{Platform} (creds : json)
    (w1 w1' w2 w2' : world) (ac asv : ContextArgs) :
  member_args creds true w1 = (Returned ac, w1') →
  member_args creds false w2 = (Returned asv, w2') →
  arg_peers ac = {[ sender_id asv := sender_auth_cred asv ]} ∧
  arg_peers asv = {[ sender_id ac := sender_auth_cred ac ]} ∧
  params_of ac = params_of asv ∧
  group_manager_cred ac = group_manager_cred asv ∧
  sender_id ac ≠ sender_id asv.
Proof.
  rewrite !member_args_value. cbn zeta iota.
  destruct (hex_field_value creds "group_manager" "private_key");
    [|discriminate].
  destruct (hex_field_value creds "group_manager" "credential");
    [|discriminate].
  destruct (hex_field_value creds "client" "private_key") as [ck|];
    [|discriminate].
  destruct (hex_field_value creds "client" "credential") as [cc|];
    [|discriminate].
  destruct (hex_field_value creds "server" "credential") as [sc|];
    [|intros; discriminate].
  destruct (hex_field_value creds "server" "private_key") as [sk|];
    [|intros; discriminate].
  intros [= <- _] [= <- _]. cbn. repeat split; discriminate.
Qed.

(** X7 on the credentials of the toy platform. *)
Lemma X7_client_and_server_fit_witness :
  ∃ ac asv,
    member_args toy_credentials true w_fresh = (Returned ac, w_fresh) ∧
    member_args toy_credentials false w_fresh = (Returned asv, w_fresh) ∧
    arg_peers ac = {[ sender_id asv := sender_auth_cred asv ]} ∧
    arg_peers asv = {[ sender_id ac := sender_auth_cred ac ]}.
Proof.
  destruct (written_credentials_decode
              (repeat (toy_byte 7) 4, [toy_byte 7; x01])
              (repeat (toy_byte 8) 4, [toy_byte 8; x01])
              (repeat (toy_byte 9) 4, [toy_byte 9; x01]) w_fresh) as [Hc Hs].
  eexists _, _. split; [exact Hc|]. split; [exact Hs|].
  destruct (X7_client_and_server_fit toy_credentials w_fresh w_fresh w_fresh
              w_fresh _ _ Hc Hs) as (Hpc & Hps & _).
  split; [exact Hpc | exact Hps].
Defined.

(** X8: a failure while the credentials are decoded (a missing entry, a
    value that is not a hexadecimal string, a document that is not an
    object) is raised to the caller of both context factories: the handler
    of [create_group_context] does not cover it, no context constructor is
    called, and the credential file is not regenerated. *)
Theorem X8_decode_errors_propagate `{Platform} `{Aiocoap} (is_client : bool)
    (w w1 w2 : world) (creds : json) (e : exn) :
  NetworkFixed.load_credentials w = (Returned creds, w1) →
  member_args creds is_client w1 = (Raised e, w2) →
  NetworkFixedContext.create_group_context is_client w = (Raised e, w1) ∧
  BenchmarkContext.create_benchmark_context is_client w = (Raised e, w1) ∧
  ((∀ kvs, creds ≠ JObj kvs) → e = TypeError) ∧
  (∀ kvs, creds = JObj kvs → assoc_last "group_manager" kvs = None →
          e = KeyError "group_manager").
Proof.
  intros Hload Hargs.
  assert (Hw : w2 = w1).
  { rewrite member_args_value in Hargs. by injection Hargs. }
  subst w2. split; [|split; [|split]].
  - unfold NetworkFixedContext.create_group_context, mbind, M_bind, bind.
    by rewrite Hload, Hargs.
  - unfold BenchmarkContext.create_benchmark_context, mbind, M_bind, bind.
    by rewrite load_or_create_is_load, Hload, Hargs.
  - intros Hshape. rewrite member_args_value in Hargs.
    unfold hex_field_value at 1 in Hargs.
    destruct creds; cbn in Hargs; try by injection Hargs.
    by destruct (Hshape members).
  - intros kvs -> Hmissing. rewrite member_args_value in Hargs.
    unfold hex_field_value at 1 in Hargs. cbn in Hargs.
    rewrite Hmissing in Hargs. by injection Hargs.
Qed.

(** X8 on a credential file that holds an empty object. *)
Lemma X8_decode_errors_witness :
  @NetworkFixedContext.create_group_context toy_platform rejecting_aiocoap
    true w_wrong_shape = (Raised (KeyError "group_manager"), w_wrong_shape).
Proof.
  assert (Hfile : files w_wrong_shape !! CREDENTIALS_FILE = Some "{}")
    by (vm_compute; reflexivity).
  assert (Hjson : json_load "{}" = Some (JObj [])) by (vm_compute; reflexivity).
  assert (Hargs : member_args (JObj []) true w_wrong_shape =
                  (Raised (KeyError "group_manager"), w_wrong_shape))
    by (rewrite member_args_value; reflexivity).
  exact (proj1 (@X8_decode_errors_propagate toy_platform rejecting_aiocoap true
                  w_wrong_shape w_wrong_shape w_wrong_shape (JObj [])
                  (KeyError "group_manager")
                  (load_valid_file _ _ _ Hfile Hjson) Hargs)).
Defined.

(** X9: a member is configured without the other member's private key: the
    client's arguments are the same whether the document holds the server's
    full entry or only the server's credential, and likewise for the
    server.  The file can be handed to a member stripped of the private
    keys that are not its own. *)
Theorem X9_foreign_private_key_is_not_read `{Platform}
    (gm cl sv : bytes * bytes) (w : world) :
  member_args (credentials_for_client gm cl sv.2) true w =
    member_args (credentials_dict gm cl sv) true w ∧
  member_args (credentials_for_server gm sv cl.2) false w =
    member_args (credentials_dict gm cl sv) false w ∧
  member_args (credentials_for_client gm cl sv.2) false w =
    (Raised (KeyError "private_key"), w).
Proof.
  destruct (written_credentials_decode gm cl sv w) as [-> ->].
  repeat split; rewrite member_args_value; unfold hex_field_value; cbn;
    rewrite ?fromhex_hex; reflexivity.
Qed.

(** ** What the subclass constructors change *)

Lemma initialize_replay_windows_is_set_windows (c : Context) :
  initialize_replay_windows c =
  set_windows (recipient_replay_windows (initialize_replay_windows c)) c.
Proof.
  unfold initialize_replay_windows.
  generalize ((map_to_list (peers c)).*1). intros l.
  assert (Hgen : ∀ c0, ∃ ws, foldl initialize_peer_window c0 l = set_windows ws c0).
  { induction l as [|x l IH]; intros c0; cbn [foldl].
    - exists (recipient_replay_windows c0). by destruct c0.
    - destruct (IH (initialize_peer_window c0 x)) as [ws ->].
      exists ws. unfold initialize_peer_window.
      by destruct (recipient_replay_windows c0 !! x). }
  destruct (Hgen c) as [ws ->]. reflexivity.
Qed.

Lemma initialize_replay_windows_dom (c : Context) :
  dom (recipient_replay_windows (initialize_replay_windows c)) =
  dom (recipient_replay_windows c).
Proof.
  apply set_eq. intros p. rewrite !elem_of_dom.
  rewrite (proj2 (initialize_replay_windows_spec c p)).
  destruct (decide (is_Some (peers c !! p))); [|done].
  by rewrite fmap_is_Some.
Qed.

(** X10: apart from the class, [FixedGroupContext.__init__] and
    [BenchmarkGroupContext.__init__] change two things of the context the
    base constructor built: the echo recovery token, which becomes the 8
    bytes drawn, and the replay windows of the peers.  Arguments, peers,
    sequence number and key material are those of the base, no window is
    added or removed, the window of an identifier that is no peer is left
    as it was, and no file is touched. *)
Theorem X10_constructor_frame `{Platform} `{Aiocoap}
    (k : context_class) (a : ContextArgs) (base : Context) (w : world) :
  SimpleGroupContext_init a = Returned base →
  ∃ c w', subclass_init k a w = (Returned c, w') ∧
    cls c = k ∧ args c = args base ∧ peers c = peers base ∧
    sender_sequence_number c = sender_sequence_number base ∧
    sender_material c = sender_material base ∧
    recipient_material c = recipient_material base ∧
    echo_recovery c = Some (token_bytes 8 (rng w)).1 ∧
    dom (recipient_replay_windows c) = dom (recipient_replay_windows base) ∧
    (∀ p, peers base !! p = None →
          recipient_replay_windows c !! p = recipient_replay_windows base !! p) ∧
    files w' = files w ∧ trace w' = trace w.
Proof.
  intros Hinit. eexists _, _.
  split; [apply subclass_init_returned, Hinit|].
  set (c0 := set_echo_recovery (token_bytes 8 (rng w)).1 (set_cls k base)).
  split; [by rewrite initialize_replay_windows_is_set_windows|].
  split; [by rewrite initialize_replay_windows_is_set_windows|].
  split; [by rewrite initialize_replay_windows_is_set_windows|].
  split; [by rewrite initialize_replay_windows_is_set_windows|].
  split; [by rewrite initialize_replay_windows_is_set_windows|].
  split; [by rewrite initialize_replay_windows_is_set_windows|].
  split; [by rewrite initialize_replay_windows_is_set_windows|].
  split; [by rewrite initialize_replay_windows_dom|].
  split; [|done].
  intros p Hp. rewrite (proj2 (initialize_replay_windows_spec c0 p)).
  rewrite decide_False; [done|].
  subst c0. cbn [set_echo_recovery set_cls peers]. rewrite Hp. by intros [? ?].
Qed.

(** X10 on the server of the toy configuration. *)
Lemma X10_constructor_frame_witness :
  ∃ c w',
    @BenchmarkGroupContext_init toy_platform Core.aiocoap
      (Testing.server_args Toy.config) w_fresh = (Returned c, w') ∧
    cls c = BenchmarkGroupContext ∧ files w' = files w_fresh.
Proof.
  destruct (Core.group_context_init (Testing.server_args Toy.config))
    as [base|e] eqn:Hinit.
  - destruct (@X10_constructor_frame toy_platform Core.aiocoap
                BenchmarkGroupContext (Testing.server_args Toy.config) base
                w_fresh Hinit)
      as (c & w' & Hrun & Hcls & _ & _ & _ & _ & _ & _ & _ & _ & Hfiles & _).
    exists c, w'. split; [exact Hrun|]. split; [exact Hcls|exact Hfiles].
  - exfalso.
    assert (Hret : is_returned
                     (Core.group_context_init (Testing.server_args Toy.config))
                   = true) by (vm_compute; reflexivity).
    rewrite Hinit in Hret. discriminate Hret.
Defined.

(** ** The benchmark loop *)

Lemma warmup_counts `{Transport} (st : BenchmarkClient.State) :
  BenchmarkClient.successful_requests (BenchmarkClient.warmup st) =
    BenchmarkClient.successful_requests st ∧
  BenchmarkClient.failed_requests (BenchmarkClient.warmup st) =
    BenchmarkClient.failed_requests st ∧
  BenchmarkClient.stats (BenchmarkClient.warmup st) = BenchmarkClient.stats st.
Proof.
  unfold BenchmarkClient.warmup.
  destruct (protect_request _ _) as [[pm|e] c]; [|done].
  by destruct (send_request pm _).
Qed.

Lemma measured_counts `{Transport} (st : BenchmarkClient.State) :
  BenchmarkClient.successful_requests (BenchmarkClient.measured st) +
  BenchmarkClient.failed_requests (BenchmarkClient.measured st) =
    S (BenchmarkClient.successful_requests st +
       BenchmarkClient.failed_requests st) ∧
  length (BenchmarkClient.latencies
            (BenchmarkClient.stats (BenchmarkClient.measured st))) =
    S (length (BenchmarkClient.latencies (BenchmarkClient.stats st))).
Proof.
  unfold BenchmarkClient.measured, BenchmarkClient.count_failure,
    BenchmarkClient.record_latency.
  destruct (time_now (BenchmarkClient.net st)) as [t0 n0].
  destruct (protect_request _ _) as [[pm|e] c].
  - destruct (send_request pm n0) as [[response|e] n1].
    + destruct (time_now n1) as [t n2]. destruct (memory_kb n2) as [m n3].
      destruct (is_successful response); cbn; rewrite length_app; cbn; lia.
    + destruct (time_now n1) as [t n2]. destruct (memory_kb n2) as [m n3].
      cbn. rewrite length_app. cbn. lia.
  - destruct (time_now n0) as [t n2]. destruct (memory_kb n2) as [m n3].
    cbn. rewrite length_app. cbn. lia.
Qed.

(** X11: the benchmark counts every measured request exactly once, as
    successful or as failed, and records exactly one latency for it,
    whether the request was answered, answered with an error code, or
    raised while it was protected or sent.  The five warm-up requests
    count for nothing.  With [num_requests] at or below zero nothing is
    measured. *)
Theorem X11_every_request_counted `{Transport}
    (num_requests : Z) (c : Context) (n : Net) :
  BenchmarkClient.successful_requests
    (BenchmarkClient.run_benchmark_requests num_requests c n) +
  BenchmarkClient.failed_requests
    (BenchmarkClient.run_benchmark_requests num_requests c n) =
    Z.to_nat num_requests ∧
  length (BenchmarkClient.latencies
            (BenchmarkClient.stats
               (BenchmarkClient.run_benchmark_requests num_requests c n))) =
    Z.to_nat num_requests.
Proof.
  unfold BenchmarkClient.run_benchmark_requests.
  set (start := BenchmarkClient.Build_State _ _ _ _ _ _).
  assert (Hwarm : ∀ k,
    BenchmarkClient.successful_requests (Nat.iter k BenchmarkClient.warmup start) = 0 ∧
    BenchmarkClient.failed_requests (Nat.iter k BenchmarkClient.warmup start) = 0 ∧
    BenchmarkClient.latencies
      (BenchmarkClient.stats (Nat.iter k BenchmarkClient.warmup start)) = []).
  { induction k as [|k (IH1 & IH2 & IH3)]; [done|].
    rewrite Nat.iter_succ.
    destruct (warmup_counts (Nat.iter k BenchmarkClient.warmup start))
      as (-> & -> & ->). done. }
  destruct (Hwarm 5) as (Hs & Hf & Hl).
  generalize dependent (Nat.iter 5 BenchmarkClient.warmup start).
  intros warm Hs Hf Hl.
  induction (Z.to_nat num_requests) as [|k [IH1 IH2]].
  - cbn. rewrite Hs, Hf, Hl. done.
  - rewrite Nat.iter_succ.
    destruct (measured_counts (Nat.iter k BenchmarkClient.measured warm))
      as [-> ->].
    rewrite IH1, IH2. done.
Qed.

(** ** The summary of the demonstration client *)

Lemma test_loop_counts `{Transport} (k i : nat) (c : Context) (n : Net)
    (acc r : nat) (c' : Context) (n' : Net) :
  Client.test_loop k i c n acc = Some (r, c', n') →
  length (Client.test_responses k i c n) = k ∧
  r = (acc + length (filter (fun o => Client.answered_successfully o = true)
                       (Client.test_responses k i c n)))%nat.
Proof.
  revert i c n acc. induction k as [|k IH]; intros i c n acc Hloop;
    cbn [Client.test_loop Client.test_responses] in *.
  - injection Hloop as <- _ _. cbn. split; [reflexivity|lia].
  - destruct (protect_request c (Client.test_message i)) as [[pm|e] c1];
      [|discriminate].
    destruct (send_request pm n) as [[response|e] n1].
    + apply IH in Hloop as [Hlen ->]. cbn [length]. split; [by rewrite Hlen|].
      rewrite filter_cons. cbn [Client.answered_successfully].
      destruct (is_successful response).
      * rewrite decide_True by reflexivity. cbn [length]. lia.
      * rewrite decide_False by discriminate. lia.
    + apply IH in Hloop as [Hlen ->]. cbn [length]. split; [by rewrite Hlen|].
      rewrite filter_cons. cbn [Client.answered_successfully].
      rewrite decide_False by discriminate. lia.
Qed.

(** X12: when [run_client] reaches its summary it reports 7 requests sent
    and, as successful, 2 plus the number of requests of the third test
    that were answered with a successful code: all five requests of the
    third test were sent, and the GET and the POST of the first two tests
    are counted as successful whatever became of them.  So the summary
    reports 7 of 7 when every request succeeds, and still 2 of 7 when none
    does, each one raising or being answered with an error code. *)
Theorem X12_summary_counts_first_two `{Transport}
    (c : Context) (n : Net) (s : Client.Summary) :
  Client.run_client_requests c n = Some s →
  ∃ c1 n1 c2 n2,
    Client.logged_request Client.hello_request c n = Some (c1, n1) ∧
    Client.logged_request Client.data_request c1 n1 = Some (c2, n2) ∧
    length (Client.test_responses 5 0 c2 n2) = 5%nat ∧
    Client.requests_sent s = 7%nat ∧
    Client.requests_successful s =
      (2 + length (filter (fun o => Client.answered_successfully o = true)
                     (Client.test_responses 5 0 c2 n2)))%nat ∧
    ((∀ pm n0, Client.answered_successfully (send_request pm n0).1 = true) →
     Client.requests_successful s = 7%nat) ∧
    ((∀ pm n0, Client.answered_successfully (send_request pm n0).1 = false) →
     Client.requests_successful s = 2%nat).
Proof.
  unfold Client.run_client_requests. intros Hrun.
  destruct (Client.logged_request Client.hello_request c n) as [[c1 n1]|]
    eqn:Hget; [|discriminate].
  destruct (Client.logged_request Client.data_request c1 n1) as [[c2 n2]|]
    eqn:Hpost; [|discriminate].
  destruct (Client.test_loop 5 0 c2 n2 0) as [[[r c3] n3]|] eqn:Hloop;
    [|discriminate].
  injection Hrun as <-. cbn [Client.requests_sent Client.requests_successful].
  apply test_loop_counts in Hloop as [Hlen ->].
  exists c1, n1, c2, n2.
  split; [reflexivity|]. split; [exact Hpost|]. split; [exact Hlen|].
  split; [reflexivity|]. split; [lia|].
  assert (Hall : ∀ (b : bool) k i c0 n0,
            (∀ pm n', Client.answered_successfully (send_request pm n').1 = b) →
            Forall (fun o => Client.answered_successfully o = b)
              (Client.test_responses k i c0 n0)).
  { intros b k. induction k as [|k IH]; intros i c0 n0 Hb;
      cbn [Client.test_responses]; [by apply Forall_nil|].
    destruct (protect_request c0 (Client.test_message i)) as [[pm|e] c'];
      [|by apply Forall_nil].
    specialize (Hb pm n0) as Hhere.
    destruct (send_request pm n0) as [o n']. apply Forall_cons.
    split; [exact Hhere|by apply IH]. }
  split; intros Hb.
  - specialize (Hall true 5%nat 0%nat c2 n2 Hb).
    assert (Hevery : ∀ l,
              Forall (fun o => Client.answered_successfully o = true) l →
              filter (fun o => Client.answered_successfully o = true) l = l).
    { intros l Hl. induction Hl as [|o l Ho _ IH]; [reflexivity|].
      rewrite filter_cons, decide_True by exact Ho. by rewrite IH. }
    rewrite (Hevery _ Hall), Hlen. reflexivity.
  - specialize (Hall false 5%nat 0%nat c2 n2 Hb).
    assert (Hnone : ∀ l,
              Forall (fun o => Client.answered_successfully o = false) l →
              filter (fun o => Client.answered_successfully o = true) l = []).
    { intros l Hl. induction Hl as [|o l Ho _ IH]; [reflexivity|].
      rewrite filter_cons, decide_False by (rewrite Ho; discriminate).
      exact IH. }
    rewrite (Hnone _ Hall). reflexivity.
Qed.

(** X12 on a transport whose server never answers: 2 of 7 are reported
    successful. *)
Lemma X12_summary_witness :
  ∃ s, @Client.run_client_requests silent_transport Toy.client 0 = Some s ∧
       Client.requests_sent s = 7 ∧ Client.requests_successful s = 2.
Proof.
  destruct (@Client.run_client_requests silent_transport Toy.client 0)
    as [s|] eqn:Hrun.
  - destruct (@X12_summary_counts_first_two silent_transport Toy.client 0 s Hrun)
      as (c1 & n1 & c2 & n2 & _ & _ & _ & Hsent & _ & _ & Hsilent).
    exists s. split; [reflexivity|]. split; [exact Hsent|].
    apply Hsilent. intros pm n0. reflexivity.
  - exfalso.
    assert (Hsome : bool_decide
              (is_Some (@Client.run_client_requests silent_transport Toy.client 0))
            = true) by (vm_compute; reflexivity).
    rewrite Hrun in Hsome. apply bool_decide_eq_true_1 in Hsome.
    by destruct Hsome.
Defined.

(** ** From the saved file to the constructor *)

Lemma subclass_init_files `{Platform} `{Aiocoap} (k : context_class)
    (a : ContextArgs) (w : world) :
  files (subclass_init k a w).2 = files w ∧
  trace (subclass_init k a w).2 = trace w.
Proof.
  destruct (SimpleGroupContext_init a) as [base|e] eqn:Hinit.
  - by rewrite (subclass_init_returned k a base w Hinit).
  - by rewrite (subclass_init_raised k a e w Hinit).
Qed.

(** X13: once the credentials have been generated and saved, and the
    decoder reads back what was written, creating the context of a member
    comes down to one constructor call on the keys that were generated:
    the member's own pair, the other member's credential as its only peer,
    the group manager's credential.  [create_group_context] turns an
    exception of the constructor into [None], [create_benchmark_context]
    lets it through; neither generates a key or writes to the file. *)
Theorem X13_creation_uses_saved_keys `{Platform} `{Aiocoap}
    (w w1 : world) (creds : json) (is_client : bool) :
  NetworkFixed.generate_and_save_credentials w = (Returned creds, w1) →
  decodes_own_output creds →
  ∃ (gm cl sv : bytes * bytes) (a : ContextArgs),
    creds = credentials_dict gm cl sv ∧
    a = (if is_client
         then make_args (client_id GROUP_CONFIG) cl.1 cl.2
                {[ server_id GROUP_CONFIG := sv.2 ]} gm.2
         else make_args (server_id GROUP_CONFIG) sv.1 sv.2
                {[ client_id GROUP_CONFIG := cl.2 ]} gm.2) ∧
    NetworkFixedContext.create_group_context is_client w1 =
      try_except (context ← FixedGroupContext_init a; ret (Some context))
        (fun _ => ret None) w1 ∧
    BenchmarkContext.create_benchmark_context is_client w1 =
      BenchmarkGroupContext_init a w1 ∧
    files (NetworkFixedContext.create_group_context is_client w1).2 = files w1 ∧
    trace (NetworkFixedContext.create_group_context is_client w1).2 = trace w1 ∧
    files (BenchmarkContext.create_benchmark_context is_client w1).2 = files w1 ∧
    trace (BenchmarkContext.create_benchmark_context is_client w1).2 = trace w1.
Proof.
  intros Hgen Hdec.
  destruct (generate_and_save_returned _ _ _ Hgen) as (gm & cl & sv & Hcreds & Hf & _).
  assert (Hload : NetworkFixed.load_credentials w1 = (Returned creds, w1)).
  { apply (load_valid_file w1 (dumps 2 creds)); [|exact Hdec].
    rewrite Hf. apply lookup_insert_eq. }
  subst creds. exists gm, cl, sv. eexists. split; [reflexivity|].
  split; [reflexivity|].
  assert (Hargs : ∀ w0,
    member_args (credentials_dict gm cl sv) is_client w0 =
    (Returned (if is_client
               then make_args (client_id GROUP_CONFIG) cl.1 cl.2
                      {[ server_id GROUP_CONFIG := sv.2 ]} gm.2
               else make_args (server_id GROUP_CONFIG) sv.1 sv.2
                      {[ client_id GROUP_CONFIG := cl.2 ]} gm.2), w0)).
  { intros w0. destruct (written_credentials_decode gm cl sv w0) as [Hc Hs].
    by destruct is_client. }
  assert (Hfixed :
    NetworkFixedContext.create_group_context is_client w1 =
    try_except
      (context ← FixedGroupContext_init
                   (if is_client
                    then make_args (client_id GROUP_CONFIG) cl.1 cl.2
                           {[ server_id GROUP_CONFIG := sv.2 ]} gm.2
                    else make_args (server_id GROUP_CONFIG) sv.1 sv.2
                           {[ client_id GROUP_CONFIG := cl.2 ]} gm.2);
       ret (Some context)) (fun _ => ret None) w1).
  { unfold NetworkFixedContext.create_group_context, mbind, M_bind, bind at 1 2.
    by rewrite Hload, Hargs. }
  assert (Hbench :
    BenchmarkContext.create_benchmark_context is_client w1 =
    BenchmarkGroupContext_init
      (if is_client
       then make_args (client_id GROUP_CONFIG) cl.1 cl.2
              {[ server_id GROUP_CONFIG := sv.2 ]} gm.2
       else make_args (server_id GROUP_CONFIG) sv.1 sv.2
              {[ client_id GROUP_CONFIG := cl.2 ]} gm.2) w1).
  { unfold BenchmarkContext.create_benchmark_context, mbind, M_bind, bind.
    by rewrite load_or_create_is_load, Hload, Hargs. }
  split; [exact Hfixed|]. split; [exact Hbench|].
  rewrite Hfixed, Hbench. unfold BenchmarkGroupContext_init, FixedGroupContext_init.
  set (a := if is_client then _ else _).
  destruct (subclass_init_files BenchmarkGroupContext a w1) as [Hbf Hbt].
  destruct (subclass_init_files FixedGroupContext a w1) as [Hff Hft].
  split; [|split; [|split; [exact Hbf|exact Hbt]]].
  - unfold try_except, mbind, M_bind, bind, ret.
    by destruct (subclass_init FixedGroupContext a w1) as [[c|e] w2].
  - unfold try_except, mbind, M_bind, bind, ret.
    by destruct (subclass_init FixedGroupContext a w1) as [[c|e] w2].
Qed.

(** X13 on the first run of the toy platform: the client's context is
    created from the saved file, which stays as it is. *)
Lemma X13_creation_witness :
  ∃ w1,
    NetworkFixed.generate_and_save_credentials w_fresh =
      (Returned toy_credentials, w1) ∧
    files (@NetworkFixedContext.create_group_context toy_platform Core.aiocoap
             true w1).2 = files w1.
Proof.
  destruct (NetworkFixed.generate_and_save_credentials w_fresh)
    as [[creds|e] w1] eqn:Hgen.
  - assert (Hcreds : (NetworkFixed.generate_and_save_credentials w_fresh).1 =
                     Returned toy_credentials) by (vm_compute; reflexivity).
    rewrite Hgen in Hcreds. injection Hcreds as ->.
    exists w1. split; [reflexivity|].
    assert (Hdec : decodes_own_output toy_credentials)
      by (vm_compute; reflexivity).
    destruct (@X13_creation_uses_saved_keys toy_platform Core.aiocoap
                w_fresh w1 toy_credentials true Hgen Hdec)
      as (_ & _ & _ & _ & _ & _ & _ & _ & Hfiles & _).
    exact Hfiles.
  - exfalso.
    assert (Hret : is_returned
                     (NetworkFixed.generate_and_save_credentials w_fresh).1
                   = true) by (vm_compute; reflexivity).
    rewrite Hgen in Hret. discriminate Hret.
Defined.

(** ** The contexts of the test script *)

(** X14: [create_group_contexts_from_config] gives both contexts or none:
    it never returns a client without a server or a server without a
    client.  It gives [(None, None)] exactly when one of the two
    constructor calls raises, and otherwise what the two calls returned,
    the client from the client's arguments and the server from the
    server's. *)
Theorem X14_contexts_all_or_nothing `{Aiocoap} (config : SharedConfig) :
  ((Testing.create_group_contexts_from_config config).1 = None ↔
  (Testing.create_group_contexts_from_config config).2 = None) ∧
  ((Testing.create_group_contexts_from_config config = (None, None)) ↔
   (is_returned (SimpleGroupContext_init (Testing.client_args config)) &&
    is_returned (SimpleGroupContext_init (Testing.server_args config)) = false)) ∧
  (∀ c s,
     SimpleGroupContext_init (Testing.client_args config) = Returned c →
     SimpleGroupContext_init (Testing.server_args config) = Returned s →
     Testing.create_group_contexts_from_config config =
       (Some (set_cls SimpleGroupContext c), Some (set_cls SimpleGroupContext s))).
Proof.
  unfold Testing.create_group_contexts_from_config.
  destruct (SimpleGroupContext_init (Testing.client_args config)) as [c0|e0];
    destruct (SimpleGroupContext_init (Testing.server_args config)) as [s0|e1];
    cbn; (split; [|split]); try done.
  by intros c s [= ->] [= ->].
Qed.
